(** * GEMM kernel generator and profiler for CUTLASS

    A shallow embedding of [python/tvm/contrib/cutlass/gen_gemm.py]:
    [create_gemm_operator_with_epilogue], [enumerate_gemm_operators],
    [DEFAULT_KERNELS] and the class [CutlassGemmProfiler] with its methods
    [check_align], [get_default], [select_op] and [profile].

    Python exceptions are values of [exn]; a method that may raise returns
    a [result].  The profiler object ([self.sm], [self.cache],
    [self.engine]) is an explicit record passed in and returned. *)

From Stdlib Require Import Ascii QArith.
From stdpp Require Import gmap strings list fin_maps.

Local Open Scope string_scope.
Local Open Scope Z_scope.

(** ** Exceptions *)

Inductive exn : Type :=
  | AssertionError
  | ValueError
  | KeyError
  | IndexError.

Inductive result (A : Type) : Type :=
  | Ok (a : A)
  | Raise (e : exn).
Arguments Ok {A} a.
Arguments Raise {A} e.

Definition rbind {A B : Type} (r : result A) (k : A -> result B) : result B :=
  match r with
  | Ok a => k a
  | Raise e => Raise e
  end.

Notation "'do' x <- r ; k" := (rbind r (fun x => k))
  (at level 10, x name, r at level 100, k at level 200).

(** [d[k]] on a dictionary: [KeyError] for a missing key. *)
Definition getitem {A : Type} (o : option A) : result A :=
  match o with
  | Some a => Ok a
  | None => Raise KeyError
  end.

(** [l[0]] *)
Definition index0 {A : Type} (l : list A) : result A :=
  match l with
  | a :: _ => Ok a
  | [] => Raise IndexError
  end.

(** [assert b] *)
Definition assert (b : bool) : result unit :=
  if b then Ok tt else Raise AssertionError.

(** [list(filter(f, l))] for a predicate that may raise: the first
    exception aborts the whole filter. *)
Fixpoint filter_raising {A : Type} (f : A -> result bool) (l : list A)
  : result (list A) :=
  match l with
  | [] => Ok []
  | x :: l' =>
      do b <- f x;
      do r <- filter_raising f l';
      Ok (if b then x :: r else r)
  end.

(** ** The regular expression of [check_align]

    [re.findall(r"align[1|2|4|8]", op_name)]: the literal [align] followed
    by one character of the class [[1|2|4|8]].  Inside a character class
    the bar is an ordinary character, so the class has the five members
    [1], [|], [2], [4] and [8]. *)

Definition in_align_class (c : ascii) : bool :=
  bool_decide (c = "1"%char) || bool_decide (c = "|"%char)
  || bool_decide (c = "2"%char) || bool_decide (c = "4"%char)
  || bool_decide (c = "8"%char).

(** The rest of [s] after the literal [align], when [s] starts with it. *)
Definition after_align (s : string) : option string :=
  match s with
  | String c1 (String c2 (String c3 (String c4 (String c5 rest)))) =>
      if bool_decide (c1 = "a"%char) && bool_decide (c2 = "l"%char)
         && bool_decide (c3 = "i"%char) && bool_decide (c4 = "g"%char)
         && bool_decide (c5 = "n"%char)
      then Some rest else None
  | _ => None
  end.

(** The match of the pattern that starts at the head of [s], if any. *)
Definition match_align (s : string) : option string :=
  match after_align s with
  | Some (String c _) =>
      if in_align_class c then Some ("align" ++ String c "") else None
  | _ => None
  end.

(** [re.findall] scans from left to right and returns the matches that do
    not overlap: after a match at position [i] the scan resumes at [i + 6].
    [skip] counts the characters of the last match still to be passed. *)
Fixpoint findall_from (skip : nat) (s : string) : list string :=
  match s with
  | EmptyString => []
  | String _ s' =>
      match skip with
      | S k => findall_from k s'
      | O =>
          match match_align s with
          | Some tok => tok :: findall_from 5 s'
          | None => findall_from 0 s'
          end
      end
  end.

Definition findall_align (op_name : string) : list string :=
  findall_from 0 op_name.

(** [tok[-1]] of a match (every match has six characters). *)
Fixpoint last_char (s : string) : option ascii :=
  match s with
  | EmptyString => None
  | String c EmptyString => Some c
  | String _ s' => last_char s'
  end.

(** [int(c)] for a one-character string: a decimal digit, [ValueError]
    otherwise. *)
Definition int_of_char (c : ascii) : result Z :=
  let n := Z.of_nat (nat_of_ascii c) in
  if (48 <=? n) && (n <=? 57) then Ok (n - 48) else Raise ValueError.

(** ** [CutlassGemmProfiler.check_align] *)

Definition check_align (op_name : string) (M N K : Z) : result bool :=
  let aligns := findall_align op_name in
  do _ <- assert (bool_decide (length aligns = 1%nat));
  match aligns with
  | tok :: _ =>
      match last_char tok with
      | Some c =>
          do align <- int_of_char c;
          Ok (forallb (fun dim => dim `mod` align =? 0) [M; N; K])
      | None => Raise IndexError
      end
  | [] => Raise IndexError
  end.

(** ** Runtimes

    [ProfilerEngine.evaluate] returns a float: a measured time or
    [float("inf")].  The code only compares runtimes ([<]), so a runtime
    is a rational or the infinite sentinel; not-a-number is not a
    runtime. *)

Inductive runtime : Type :=
  | Finite (t : Q)
  | Inf.

(** [a < b] on runtimes. *)
Definition rt_ltb (a b : runtime) : bool :=
  match a, b with
  | Finite x, Finite y => negb (Qle_bool y x)
  | Finite _, Inf => true
  | Inf, _ => false
  end.

(** [out < float("inf")] *)
Definition is_finite (out : runtime) : bool := rt_ltb out Inf.

(** ** The CUTLASS library interface

    [library.py], [gemm_operation.py], [gemm_profiler.py] and
    [gen_tensor_op.py] are outside this module: their enumerations, classes
    and tables are the fields of the classes [LibraryTypes] and [Library],
    and every definition below is stated for an arbitrary instance. *)

Inductive LayoutType : Type :=
  | RowMajor
  | ColumnMajor.

(** ** [DEFAULT_KERNELS] *)

Definition DEFAULT_KERNELS : gmap Z (gmap string string) :=
  {[ 75 := {[ "float16" := "cutlass_tensorop_h1688gemm_128x64_32x2_tn_align1";
              "float32" := "cutlass_tensorop_s1688gemm_f16_64x64_32x2_tn_align1" ]};
     80 := {[ "float16" := "cutlass_tensorop_h1688gemm_128x64_32x2_tn_align1";
              "float32" := "cutlass_tensorop_s1688gemm_f16_64x64_32x2_tn_align1" ]} ]}.

(** Calls that leave the class, in the order they are made: the catalog
    generator, [engine.compile_all] and [engine.evaluate]. *)
Inductive event : Type :=
  | EvEnumerate (out_dtype : string)
  | EvCompileAll (names : list string) (use_multiprocessing : bool)
  | EvEvaluate (op_name : string) (shape : list Z).

(** The enumerations and classes of the library, and the state of the
    profiler engine. *)
Class LibraryTypes : Type := {
  DataType : Type;
  TileDescription : Type;
  EpilogueFunctor : Type;
  SwizzlingFunctor : Type;
  Engine : Type
}.

Section Cutlass.

Context {LT : LibraryTypes}.

(** [TensorDescription(element, layout, alignment)] *)
Record TensorDescription : Type := mkTensorDescription {
  element : DataType;
  layout : LayoutType;
  td_alignment : Z
}.

(** [GemmOperation(arch, tile_description, A, B, C, element_epilogue,
    epilogue_functor, swizzling_functor)] *)
Record GemmOperation : Type := mkGemmOperation {
  arch : Z;
  op_tile_description : TileDescription;
  A : TensorDescription;
  B : TensorDescription;
  C : TensorDescription;
  element_epilogue : DataType;
  epilogue_functor : EpilogueFunctor;
  swizzling_functor : SwizzlingFunctor
}.

(** The 4-tuple [data_type]. *)
Definition data_type_t : Type := (DataType * DataType * DataType * DataType)%type.

(** ** Candidates

    The dictionaries appended by [enumerate_gemm_operators]; the keys
    ["runtime"] and ["opdef"] are added later by [select_op] and
    [get_default]. *)

Record Candidate : Type := mkCandidate {
  src : string;
  op : GemmOperation;
  name : string;
  tile_description : TileDescription;
  alignment : Z;
  data_type : data_type_t;
  swizzle_functor : SwizzlingFunctor;
  runtime_ : option runtime;
  opdef : option string
}.

(** [op["runtime"] = out] *)
Definition set_runtime (c : Candidate) (out : runtime) : Candidate :=
  mkCandidate (src c) (op c) (name c) (tile_description c) (alignment c)
    (data_type c) (swizzle_functor c) (Some out) (opdef c).

(** [op.update({"name": name, "opdef": opdef})] *)
Definition update_name_opdef (c : Candidate) (n d : string) : Candidate :=
  mkCandidate (src c) (op c) n (tile_description c) (alignment c)
    (data_type c) (swizzle_functor c) (runtime_ c) (Some d).

(** The type of [op_creator]; [None] for the swizzling functor is the
    argument left out. *)
Definition op_creator_t : Type :=
  list TileDescription -> data_type_t -> list Z ->
  option SwizzlingFunctor -> list Candidate.

(** What the module uses of the library. *)
Class Library : Type := {
  (** [tile_description.minimum_compute_capability] *)
  minimum_compute_capability : TileDescription -> Z;
  (** [EpilogueFunctor.LinearCombination] *)
  LinearCombination : EpilogueFunctor;
  (** [SwizzlingFunctor.Identity8] and [SwizzlingFunctor.Batched] *)
  Identity8 : SwizzlingFunctor;
  Batched : SwizzlingFunctor;
  DataTypeTag : DataType -> string;
  (** [EPILOGUE_MAP[op_type]] is a pair (epilogue functor, no_beta_scaling). *)
  EPILOGUE_MAP : string -> option (EpilogueFunctor * bool);
  (** [op.procedural_name()] and [op.leading_dim()] *)
  procedural_name : GemmOperation -> string;
  leading_dim : GemmOperation -> string;
  (** [EmitGemmInstance().emit(op, no_beta_scaling=..., batched=...)];
      [None] is the keyword left out. *)
  kernel_emit : GemmOperation -> option bool -> bool -> string;
  (** [GemmProfilerEmitter().emit(name, opdef, tag_a, tag_b, tag_c, ld)] *)
  profiler_emit :
    string -> string -> string -> string -> string -> string -> string;
  (** [GENERATOR_FUNC_TABLE[sm]] is a function of [out_dtype] and
      [op_creator] that returns the catalog. *)
  GENERATOR_FUNC_TABLE :
    Z -> option (string -> op_creator_t -> result (list Candidate));
  (** [ProfilerEngine(sm, cutlass_path, binary_path)], [compile_all] and
      [evaluate]. *)
  ProfilerEngine : Z -> string -> string -> Engine;
  compile_all : Engine -> list Candidate -> bool -> Engine;
  evaluate : Engine -> Candidate -> list Z -> runtime * Engine
}.

Context {L : Library}.

(** ** [create_gemm_operator_with_epilogue] *)

Definition create_gemm_operator_with_epilogue
    (op_type : string) (tile_description : TileDescription)
    (data_type : data_type_t) (alignment : Z)
    (swizzling_functor : SwizzlingFunctor) (batched : bool)
  : result (string * string) :=
  let '(element_a, element_b, element_c, element_epilogue) := data_type in
  let A := mkTensorDescription element_a RowMajor alignment in
  let B := mkTensorDescription element_b ColumnMajor alignment in
  let C := mkTensorDescription element_c RowMajor alignment in
  let swizzling_functor := if batched then Batched else swizzling_functor in
  do entry <- getitem (EPILOGUE_MAP op_type);
  let '(epilogue, no_beta_scaling) := entry in
  let op :=
    mkGemmOperation (minimum_compute_capability tile_description)
      tile_description A B C element_epilogue epilogue swizzling_functor in
  Ok (procedural_name op, kernel_emit op (Some no_beta_scaling) batched).

(** ** [enumerate_gemm_operators] *)

(** The body of the two loops for one tile description and one alignment. *)
Definition enumerate_one (data_type : data_type_t)
    (swizzling_functor : SwizzlingFunctor)
    (tile_description : TileDescription) (alignment : Z) : Candidate :=
  let '(element_a, element_b, element_c, element_epilogue) := data_type in
  let A := mkTensorDescription element_a RowMajor alignment in
  let B := mkTensorDescription element_b ColumnMajor alignment in
  let C := mkTensorDescription element_c RowMajor alignment in
  let op :=
    mkGemmOperation (minimum_compute_capability tile_description)
      tile_description A B C element_epilogue LinearCombination
      swizzling_functor in
  let src :=
    profiler_emit (procedural_name op) (kernel_emit op None false)
      (DataTypeTag element_a) (DataTypeTag element_b) (DataTypeTag element_c)
      (leading_dim op) in
  mkCandidate src op (procedural_name op) tile_description alignment
    data_type swizzling_functor None None.

(** [swizzling_functor] defaults to [SwizzlingFunctor.Identity8]. *)
Definition enumerate_gemm_operators
    (tile_descriptions : list TileDescription) (data_type : data_type_t)
    (alignment_constraints : list Z)
    (swizzling_functor : option SwizzlingFunctor) : list Candidate :=
  let swizzling_functor := default Identity8 swizzling_functor in
  flat_map (fun tile_description =>
    map (fun alignment =>
      enumerate_one data_type swizzling_functor tile_description alignment)
      alignment_constraints) tile_descriptions.

(** ** [CutlassGemmProfiler]

    The object: [self.sm], [self.cache] (keyed by the tuple (M, N, K)) and
    the state of [self.engine].  [trace] is not a field of the class: it
    records the calls made to the generator and to the engine, so that
    what a method does outside the object can be stated. *)

Record Profiler : Type := mkProfiler {
  sm : Z;
  cache : gmap (Z * Z * Z) Candidate;
  engine : Engine;
  trace : list event
}.

(** [__init__] *)
Definition init (sm : Z) (cutlass_path binary_path : string) : result Profiler :=
  do _ <- assert (bool_decide (is_Some (GENERATOR_FUNC_TABLE sm))
                  && bool_decide (is_Some (DEFAULT_KERNELS !! sm)));
  Ok (mkProfiler sm ∅ (ProfilerEngine sm cutlass_path binary_path) []).

(** [self.cache] replaced. *)
Definition with_cache (self : Profiler) (c : gmap (Z * Z * Z) Candidate) : Profiler :=
  mkProfiler (sm self) c (engine self) (trace self).

(** The engine state after calls [evs]. *)
Definition with_engine (self : Profiler) (e : Engine) (evs : list event) : Profiler :=
  mkProfiler (sm self) (cache self) e (trace self ++ evs).

(** [GENERATOR_FUNC_TABLE[self.sm](out_dtype, op_creator=enumerate_gemm_operators)] *)
Definition generate (self : Profiler) (out_dtype : string)
  : result (list Candidate) * Profiler :=
  match GENERATOR_FUNC_TABLE (sm self) with
  | None => (Raise KeyError, self)
  | Some gen =>
      (gen out_dtype enumerate_gemm_operators,
       with_engine self (engine self) [EvEnumerate out_dtype])
  end.

(** *** [get_default] *)

Definition get_default (self : Profiler) (op_type out_dtype : string)
    (batched : bool) : result Candidate * Profiler :=
  let '(ops, self) := generate self out_dtype in
  (do ops <- ops;
   do kernels <- getitem (DEFAULT_KERNELS !! sm self);
   do default_kernel_name <- getitem (kernels !! out_dtype);
   let filtered :=
     List.filter (fun op => bool_decide (name op = default_kernel_name)) ops in
   do _ <- assert (bool_decide (length filtered = 1%nat));
   do op <- index0 filtered;
   do r <- create_gemm_operator_with_epilogue op_type (tile_description op)
             (data_type op) (alignment op) (swizzle_functor op) batched;
   Ok (update_name_opdef op r.1 r.2),
   self).

(** *** [select_op] *)

(** [i["runtime"]] *)
Definition runtime_key (i : Candidate) : result runtime := getitem (runtime_ i).

(** [min(ops, key=lambda i: i["runtime"])]: the first item is the best so
    far, a later item replaces it only when its key is strictly smaller;
    [ValueError] on an empty list. *)
Fixpoint min_loop (best : Candidate) (kbest : runtime) (l : list Candidate)
  : result Candidate :=
  match l with
  | [] => Ok best
  | i :: l' =>
      do k <- runtime_key i;
      if rt_ltb k kbest then min_loop i k l' else min_loop best kbest l'
  end.

Definition min_by_runtime (ops : list Candidate) : result Candidate :=
  match ops with
  | [] => Raise ValueError
  | i :: l' => do k <- runtime_key i; min_loop i k l'
  end.

(** How the [for] loop ends: by its [return op], or by running off the
    end of [ops] (whose members then all carry a runtime). *)
Inductive loop_exit : Type :=
  | Return (op : Candidate)
  | Fallthrough (ops : list Candidate).

Fixpoint eval_loop (profile_all : bool) (M N K : Z) (e : Engine)
    (ops : list Candidate) : loop_exit * Engine * list event :=
  match ops with
  | [] => (Fallthrough [], e, [])
  | op :: rest =>
      let '(out, e1) := evaluate e op [M; N; K] in
      let op := set_runtime op out in
      let ev := EvEvaluate (name op) [M; N; K] in
      if is_finite out && negb profile_all then (Return op, e1, [ev])
      else
        let '(x, e2, evs) := eval_loop profile_all M N K e1 rest in
        (match x with
         | Return w => Return w
         | Fallthrough rest' => Fallthrough (op :: rest')
         end, e2, ev :: evs)
  end.

Definition select_op (self : Profiler) (M N K : Z) (out_dtype : string)
    (profile_all use_multiprocessing : bool) : result Candidate * Profiler :=
  match cache self !! (M, N, K) with
  | Some op => (Ok op, self)
  | None =>
      let '(ops, self) := generate self out_dtype in
      match do ops <- ops;
            filter_raising (fun op => check_align (name op) M N K) ops with
      | Raise e => (Raise e, self)
      | Ok ops =>
          let self :=
            if profile_all then
              with_engine self
                (compile_all (engine self) ops use_multiprocessing)
                [EvCompileAll (map name ops) use_multiprocessing]
            else self in
          let '(x, e, evs) := eval_loop profile_all M N K (engine self) ops in
          let self := with_engine self e evs in
          match x with
          | Return op => (Ok op, with_cache self (<[(M, N, K) := op]> (cache self)))
          | Fallthrough ops =>
              match min_by_runtime ops with
              | Ok op => (Ok op, with_cache self (<[(M, N, K) := op]> (cache self)))
              | Raise e => (Raise e, self)
              end
          end
      end
  end.

(** *** [profile] *)

Definition profile (self : Profiler) (op_type : string) (M N K : Z)
    (out_dtype : string) (profile_all use_multiprocessing batched : bool)
  : result (string * string * runtime) * Profiler :=
  let '(op, self) :=
    select_op self M N K out_dtype profile_all use_multiprocessing in
  (do op <- op;
   do r <- create_gemm_operator_with_epilogue op_type (tile_description op)
             (data_type op) (alignment op) (swizzle_functor op) batched;
   do rt <- runtime_key op;
   Ok (r.1, r.2, rt),
   self).

(** ** Notions used to state the properties *)

(** Evaluating every member of [ops] in order, from engine state [e]: the
    candidates with their runtimes, and the engine state reached. *)
Fixpoint evaluate_all (M N K : Z) (e : Engine) (ops : list Candidate)
  : list Candidate * Engine :=
  match ops with
  | [] => ([], e)
  | op :: rest =>
      let '(out, e1) := evaluate e op [M; N; K] in
      let '(rest', e2) := evaluate_all M N K e1 rest in
      (set_runtime op out :: rest', e2)
  end.

(** The [evaluate] calls made for [ops], as events. *)
Definition evaluate_events (M N K : Z) (ops : list Candidate) : list event :=
  map (fun op => EvEvaluate (name op) [M; N; K]) ops.

(** The feasible candidates of a catalog for a shape. *)
Definition feasible (M N K : Z) (catalog : list Candidate)
  : result (list Candidate) :=
  filter_raising (fun op => check_align (name op) M N K) catalog.

(** [w] at index [i] of [l] has the least runtime of [l] and is the first
    member of [l] with that runtime. *)
Definition first_min (l : list Candidate) (i : nat) (w : Candidate)
    (kw : runtime) : Prop :=
  l !! i = Some w /\ runtime_ w = Some kw
  /\ (forall c k, c ∈ l -> runtime_ c = Some k -> rt_ltb k kw = false)
  /\ (forall j c k, (j < i)%nat -> l !! j = Some c -> runtime_ c = Some k ->
                    rt_ltb kw k = true).

(** The operation [create_gemm_operator_with_epilogue] builds from the
    fields of candidate [c] for an epilogue functor. *)
Definition reinstantiated (c : Candidate) (epilogue : EpilogueFunctor)
    (batched : bool) : GemmOperation :=
  mkGemmOperation (minimum_compute_capability (tile_description c))
    (tile_description c)
    (mkTensorDescription (data_type c).1.1.1 RowMajor (alignment c))
    (mkTensorDescription (data_type c).1.1.2 ColumnMajor (alignment c))
    (mkTensorDescription (data_type c).1.2 RowMajor (alignment c))
    (data_type c).2 epilogue
    (if batched then Batched else swizzle_functor c).

(** The profilers a program can hold: made by [__init__] and passed
    through any number of method calls. *)
Inductive reachable : Profiler -> Prop :=
  | reach_init (sm : Z) (cutlass_path binary_path : string) (p : Profiler) :
      init sm cutlass_path binary_path = Ok p -> reachable p
  | reach_select_op (p : Profiler) (M N K : Z) (out_dtype : string)
      (profile_all use_multiprocessing : bool) :
      reachable p ->
      reachable (select_op p M N K out_dtype profile_all use_multiprocessing).2
  | reach_get_default (p : Profiler) (op_type out_dtype : string)
      (batched : bool) :
      reachable p -> reachable (get_default p op_type out_dtype batched).2
  | reach_profile (p : Profiler) (op_type : string) (M N K : Z)
      (out_dtype : string) (profile_all use_multiprocessing batched : bool) :
      reachable p ->
      reachable (profile p op_type M N K out_dtype profile_all
                   use_multiprocessing batched).2.

(** Every cache entry passes the alignment check for its own key and
    carries a runtime. *)
Definition cache_feasible (p : Profiler) : Prop :=
  forall (M N K : Z) (w : Candidate),
    cache p !! (M, N, K) = Some w ->
    check_align (name w) M N K = Ok true /\ is_Some (runtime_ w).

End Cutlass.

(** ** Alignment tokens

    An alignment token is [align] followed by one of the alignments 1, 2,
    4 and 8; [alignment_tokens] lists the alignments a name carries, from
    left to right. *)

Definition alignment_of_char (c : ascii) : option Z :=
  if bool_decide (c = "1"%char) then Some 1
  else if bool_decide (c = "2"%char) then Some 2
  else if bool_decide (c = "4"%char) then Some 4
  else if bool_decide (c = "8"%char) then Some 8
  else None.

Definition alignment_token_at (s : string) : option Z :=
  match after_align s with
  | Some (String c _) => alignment_of_char c
  | _ => None
  end.

Fixpoint alignment_tokens (s : string) : list Z :=
  match s with
  | EmptyString => []
  | String _ s' =>
      match alignment_token_at s with
      | Some a => a :: alignment_tokens s'
      | None => alignment_tokens s'
      end
  end.

(** Names in which [align] is nowhere followed by a bar. *)
Definition bar_at (s : string) : bool :=
  match after_align s with
  | Some (String c _) => bool_decide (c = "|"%char)
  | _ => false
  end.

Fixpoint bar_free (s : string) : bool :=
  match s with
  | EmptyString => true
  | String _ s' => negb (bar_at s) && bar_free s'
  end.

(** The match [tok] of the pattern ends in the digit of alignment [a]. *)
Definition encodes (tok : string) (a : Z) : Prop :=
  exists c, last_char tok = Some c /\ int_of_char c = Ok a.

(** ** A small library instance

    Two tile shapes, half-precision inputs, and an engine that reads the
    runtime of a kernel from a table and counts its [evaluate] calls. *)

Inductive ex_dtype : Type := f16 | f32.
Inductive ex_epilogue : Type := ex_linear | ex_linear_relu.
Inductive ex_swizzle : Type := ex_identity8 | ex_batched.

Record ex_tile : Type := mk_ex_tile {
  ex_tile_name : string;
  ex_min_cc : Z
}.

#[local] Instance ex_types : LibraryTypes := {|
  DataType := ex_dtype;
  TileDescription := ex_tile;
  EpilogueFunctor := ex_epilogue;
  SwizzlingFunctor := ex_swizzle;
  Engine := nat
|}.

Definition ex_digit (a : Z) : string :=
  if a =? 1 then "1" else if a =? 2 then "2" else if a =? 4 then "4" else "8".

Definition ex_procedural_name (o : GemmOperation) : string :=
  "cutlass_tensorop_" ++ ex_tile_name (op_tile_description o) ++ "_tn_align"
  ++ ex_digit (td_alignment (A o)).

Definition ex_t1 : ex_tile := mk_ex_tile "h1688gemm_128x64_32x2" 75.
Definition ex_t2 : ex_tile := mk_ex_tile "h1688gemm_64x64_32x2" 75.

Definition ex_tiles : list ex_tile := [ex_t1; ex_t2].

Definition ex_data_type : ex_dtype * ex_dtype * ex_dtype * ex_dtype :=
  (f16, f16, f16, f16).

(** The instance for a list of tile descriptions, a list of alignment
    constraints and a table of runtimes. *)
Definition ex_library (tiles : list ex_tile) (aligns : list Z)
    (table : string -> runtime) : Library := {|
  minimum_compute_capability := ex_min_cc;
  LinearCombination := ex_linear;
  Identity8 := ex_identity8;
  Batched := ex_batched;
  DataTypeTag := fun d => match d with f16 => "cutlass::half_t" | f32 => "float" end;
  EPILOGUE_MAP := fun op_type =>
    if bool_decide (op_type = "cutlass.dense") then Some (ex_linear, false)
    else if bool_decide (op_type = "cutlass.dense_bias_relu")
         then Some (ex_linear_relu, true)
    else None;
  procedural_name := ex_procedural_name;
  leading_dim := fun _ => "M, M, M";
  kernel_emit := fun o nb batched =>
    "gemm<" ++ ex_procedural_name o ++
    match epilogue_functor o with ex_linear => "" | ex_linear_relu => ", relu" end
    ++ match swizzling_functor o with ex_identity8 => "" | ex_batched => ", batched" end
    ++ ">";
  profiler_emit := fun n d _ _ _ _ => "profile " ++ n ++ " " ++ d;
  GENERATOR_FUNC_TABLE := fun sm =>
    if bool_decide (sm = 75) || bool_decide (sm = 80)
    then Some (fun out_dtype op_creator =>
                 if bool_decide (out_dtype = "float16")
                 then Ok (op_creator tiles ex_data_type aligns None)
                 else Raise KeyError)
    else None;
  ProfilerEngine := fun _ _ _ => O;
  compile_all := fun e _ _ => e;
  evaluate := fun e c _ => (table (name c), S e)
|}.

(** Runtimes in which the second tile shape is the faster one. *)
Definition ex_table (n : string) : runtime :=
  if bool_decide (n = "cutlass_tensorop_h1688gemm_128x64_32x2_tn_align8") then Finite (3 # 1)
  else if bool_decide (n = "cutlass_tensorop_h1688gemm_64x64_32x2_tn_align8") then Finite (2 # 1)
  else if bool_decide (n = "cutlass_tensorop_h1688gemm_64x64_32x2_tn_align4") then Finite (2 # 1)
  else if bool_decide (n = "cutlass_tensorop_h1688gemm_128x64_32x2_tn_align1") then Finite (7 # 2)
  else Inf.

(** Every kernel fails to compile or to run. *)
Definition ex_table_inf (n : string) : runtime := Inf.

(** Only the third kernel of the first tile shape runs; a kernel of the
    second tile shape would be faster. *)
Definition ex_table_late (n : string) : runtime :=
  if bool_decide (n = "cutlass_tensorop_h1688gemm_128x64_32x2_tn_align2") then Finite (5 # 1)
  else if bool_decide (n = "cutlass_tensorop_h1688gemm_64x64_32x2_tn_align8") then Finite (1 # 1)
  else Inf.

Definition ex_profiler (L : Library) : Profiler :=
  mkProfiler 80 ∅ (ProfilerEngine 80 "cutlass" "bin") [].

(** The usual catalog with measured runtimes. *)
Definition L_ok : Library := ex_library ex_tiles [8; 4; 2; 1] ex_table.
(** The usual catalog, no kernel runs. *)
Definition L_inf : Library := ex_library ex_tiles [8; 4; 2; 1] ex_table_inf.
(** The usual catalog, the first kernel that runs is not the fastest. *)
Definition L_late : Library := ex_library ex_tiles [8; 4; 2; 1] ex_table_late.
(** A catalog without kernels of alignment 1. *)
Definition L_aligned : Library := ex_library ex_tiles [8; 4; 2] ex_table.
(** A catalog that lists the first tile shape twice. *)
Definition L_dup : Library := ex_library [ex_t1; ex_t1] [8; 4; 2; 1] ex_table.
(** A catalog without the tile shape of the default kernel. *)
Definition L_small : Library := ex_library [ex_t2] [8; 4; 2; 1] ex_table.

(** The candidate of the instances for a tile shape and an alignment. *)
Definition ex_candidate (L : Library) (t : ex_tile) (a : Z) : Candidate :=
  enumerate_one ex_data_type ex_identity8 t a.

(** An instance with another naming scheme and another generator table. *)
Definition ex_library_with (L : Library)
    (pname : GemmOperation -> string)
    (table : Z -> option (string -> op_creator_t -> result (list Candidate)))
  : Library := {|
  minimum_compute_capability := minimum_compute_capability (Library := L);
  LinearCombination := LinearCombination (Library := L);
  Identity8 := Identity8 (Library := L);
  Batched := Batched (Library := L);
  DataTypeTag := DataTypeTag (Library := L);
  EPILOGUE_MAP := EPILOGUE_MAP (Library := L);
  procedural_name := pname;
  leading_dim := leading_dim (Library := L);
  kernel_emit := kernel_emit (Library := L);
  profiler_emit := profiler_emit (Library := L);
  GENERATOR_FUNC_TABLE := table;
  ProfilerEngine := ProfilerEngine (Library := L);
  compile_all := compile_all (Library := L);
  evaluate := evaluate (Library := L)
|}.

(** Kernel names that leave the alignment out. *)
Definition L_unnamed : Library :=
  ex_library_with L_ok
    (fun o => "cutlass_tensorop_" ++ ex_tile_name (op_tile_description o))
    (GENERATOR_FUNC_TABLE (Library := L_ok)).

(** A generator that accepts every output type. *)
Definition L_any : Library :=
  ex_library_with L_ok ex_procedural_name
    (fun sm =>
       if bool_decide (sm = 75) || bool_decide (sm = 80)
       then Some (fun _ op_creator =>
                    Ok (op_creator ex_tiles ex_data_type [8; 4; 2; 1] None))
       else None).

(** The catalog of an instance. *)
Definition ex_catalog (L : Library) (tiles : list ex_tile) (aligns : list Z)
  : list Candidate :=
  enumerate_gemm_operators (LT := ex_types) (L := L) tiles ex_data_type aligns None.

(** * Properties *)

Local Open Scope list_scope.

(** ** [check_align] *)

Lemma check_align_single (op_name tok : string) (c : ascii) (M N K : Z) :
  findall_align op_name = [tok] ->
  last_char tok = Some c ->
  check_align op_name M N K =
    (do align <- int_of_char c;
     Ok (forallb (fun dim => dim `mod` align =? 0) [M; N; K])).
Proof.
  intros Hf Hl. unfold check_align. rewrite Hf. simpl. rewrite Hl. reflexivity.
Qed.

Lemma check_align_assertion (op_name : string) (M N K : Z) :
  check_align op_name M N K = Raise AssertionError <->
  length (findall_align op_name) <> 1%nat.
Proof.
  unfold check_align.
  destruct (findall_align op_name) as [|tok [|tok' l]]; simpl.
  - split; [intros _; lia | reflexivity].
  - split; [|intros H; lia].
    destruct (last_char tok); [|discriminate].
    destruct (int_of_char a) eqn:E; simpl; [discriminate|].
    unfold int_of_char in E. destruct (_ && _); [discriminate|].
    injection E as <-. discriminate.
  - split; [intros _; lia | reflexivity].
Qed.

(** *** Names without a bar after [align]

    On these names the matches of the pattern are the alignment tokens. *)

Lemma after_align_head (c : ascii) (s : string) :
  c <> "a"%char -> after_align (String c s) = None.
Proof.
  intros Hc. unfold after_align.
  destruct s as [|c2 [|c3 [|c4 [|c5 rest]]]]; try reflexivity.
  rewrite (bool_decide_eq_false_2 _ Hc). reflexivity.
Qed.

Lemma after_align_Some (s rest : string) :
  after_align s = Some rest -> s = ("align" ++ rest)%string.
Proof.
  unfold after_align.
  destruct s as [|c1 [|c2 [|c3 [|c4 [|c5 r]]]]]; try discriminate.
  destruct (bool_decide (c1 = "a"%char)) eqn:H1; [|discriminate].
  destruct (bool_decide (c2 = "l"%char)) eqn:H2; [|discriminate].
  destruct (bool_decide (c3 = "i"%char)) eqn:H3; [|discriminate].
  destruct (bool_decide (c4 = "g"%char)) eqn:H4; [|discriminate].
  destruct (bool_decide (c5 = "n"%char)) eqn:H5; [|discriminate].
  apply bool_decide_eq_true in H1, H2, H3, H4, H5. subst. simpl.
  intros [= ->]. reflexivity.
Qed.

Lemma bar_free_tail (c : ascii) (s : string) :
  bar_free (String c s) = true -> bar_free s = true.
Proof. simpl. intros H. apply andb_true_iff in H as [_ H]. exact H. Qed.

Lemma alignment_of_char_class (c : ascii) :
  c <> "|"%char ->
  match alignment_of_char c with
  | Some a =>
      in_align_class c = true /\ c <> "a"%char /\ int_of_char c = Ok a
      /\ (a = 1 \/ a = 2 \/ a = 4 \/ a = 8)
  | None => in_align_class c = false
  end.
Proof.
  intros Hbar. unfold alignment_of_char, in_align_class.
  rewrite (bool_decide_eq_false_2 _ Hbar).
  destruct (bool_decide (c = "1"%char)) eqn:H1;
    [apply bool_decide_eq_true in H1; subst; vm_compute; intuition congruence|].
  destruct (bool_decide (c = "2"%char)) eqn:H2;
    [apply bool_decide_eq_true in H2; subst; vm_compute; intuition congruence|].
  destruct (bool_decide (c = "4"%char)) eqn:H4;
    [apply bool_decide_eq_true in H4; subst; vm_compute; intuition congruence|].
  destruct (bool_decide (c = "8"%char)) eqn:H8;
    [apply bool_decide_eq_true in H8; subst; vm_compute; intuition congruence|].
  reflexivity.
Qed.

Lemma findall_bar_free (n : nat) :
  forall s : string,
    (String.length s <= n)%nat -> bar_free s = true ->
    Forall2 encodes (findall_from 0 s) (alignment_tokens s).
Proof.
  induction n as [|n IH]; intros s Hlen Hfree.
  - destruct s; [constructor | simpl in Hlen; lia].
  - destruct s as [|c0 s']; [constructor|].
    assert (Hs' : Forall2 encodes (findall_from 0 s') (alignment_tokens s')).
    { apply IH; [simpl in Hlen; lia | eapply bar_free_tail; exact Hfree]. }
    cbn [findall_from alignment_tokens].
    unfold match_align, alignment_token_at.
    destruct (after_align (String c0 s')) as [[|c r]|] eqn:Hafter; try exact Hs'.
    assert (Hbar : c <> "|"%char).
    { simpl in Hfree. apply andb_true_iff in Hfree as [Hb _].
      unfold bar_at in Hb. rewrite Hafter in Hb.
      apply negb_true_iff, bool_decide_eq_false in Hb. exact Hb. }
    pose proof (alignment_of_char_class c Hbar) as Hclass.
    destruct (alignment_of_char c) as [a|]; [|rewrite Hclass; exact Hs'].
    destruct Hclass as (Hin & Hca & Hint & _). rewrite Hin.
    apply after_align_Some in Hafter. simpl in Hafter.
    injection Hafter as -> ->.
    constructor.
    + exists c. split; [reflexivity | exact Hint].
    + change ("lign" +:+ String c r)
        with (String "l" (String "i" (String "g" (String "n" (String c r))))).
      cbn [findall_from alignment_tokens].
      unfold alignment_token_at.
      rewrite !after_align_head by (try discriminate; exact Hca).
      apply IH; [simpl in Hlen; simpl; lia|].
      do 6 apply bar_free_tail in Hfree. exact Hfree.
Qed.

(** On a name without a bar after [align], [check_align] fails its
    assertion unless the name carries exactly one alignment token, and
    with one token of alignment [a] it tells whether M, N and K are all
    multiples of [a]. *)
Lemma check_align_bar_free (op_name : string) (M N K : Z) :
  bar_free op_name = true ->
  check_align op_name M N K =
  match alignment_tokens op_name with
  | [a] => Ok (forallb (fun dim => dim `mod` a =? 0) [M; N; K])
  | _ => Raise AssertionError
  end.
Proof.
  intros Hfree.
  pose proof (findall_bar_free _ op_name (le_n _) Hfree) as H.
  unfold check_align, findall_align.
  destruct H as [|tok a toks l (c & Hlast & Hint) Hrest]; [reflexivity|].
  destruct Hrest; simpl; [|reflexivity].
  rewrite Hlast, Hint. reflexivity.
Qed.

Lemma alignment_tokens_values (s : string) :
  Forall (fun a => a = 1 \/ a = 2 \/ a = 4 \/ a = 8) (alignment_tokens s).
Proof.
  induction s as [|c s IH]; [constructor|]. cbn [alignment_tokens].
  unfold alignment_token_at.
  destruct (after_align (String c s)) as [[|c' r]|]; try exact IH.
  unfold alignment_of_char. repeat case_bool_decide; try exact IH;
    constructor; auto.
Qed.

(** X2. On a name without a bar after [align] that carries exactly one
    alignment token, of alignment [a], [check_align] returns a boolean,
    and it is true exactly when [a] divides each of M, N and K (also for
    zero and negative dimensions). *)
Lemma check_align_bar_free_divides (op_name : string) (a M N K : Z) :
  bar_free op_name = true ->
  alignment_tokens op_name = [a] ->
  exists b, check_align op_name M N K = Ok b
            /\ (b = true <-> (a | M) /\ (a | N) /\ (a | K)).
Proof.
  intros Hfree Htok. rewrite (check_align_bar_free _ _ _ _ Hfree), Htok.
  eexists. split; [reflexivity|].
  pose proof (alignment_tokens_values op_name) as Hv. rewrite Htok in Hv.
  apply Forall_cons in Hv as [Ha _].
  assert (a <> 0) by lia. simpl.
  rewrite !andb_true_iff, !Z.eqb_eq, <- !Z.mod_divide by assumption.
  tauto.
Qed.

(** ** The order of runtimes *)

Lemma rt_ltb_irrefl (a : runtime) : rt_ltb a a = false.
Proof.
  destruct a as [x|]; simpl; [|reflexivity].
  assert (H : Qle_bool x x = true) by (apply Qle_bool_iff, Qle_refl).
  rewrite H. reflexivity.
Qed.

Lemma rt_ltb_le_trans (a b c : runtime) :
  rt_ltb a b = true -> rt_ltb c b = false -> rt_ltb a c = true.
Proof.
  destruct a as [x|], b as [y|], c as [z|]; simpl; try done.
  intros Hxy Hzy.
  apply negb_true_iff in Hxy. apply negb_false_iff in Hzy.
  apply negb_true_iff. destruct (Qle_bool z x) eqn:Hzx; [|reflexivity].
  apply Qle_bool_iff in Hzy, Hzx.
  assert (H : Qle_bool y x = true)
    by (apply Qle_bool_iff; eapply Qle_trans; eassumption).
  congruence.
Qed.

Lemma rt_ltb_asym (a b : runtime) : rt_ltb a b = true -> rt_ltb b a = false.
Proof.
  destruct a as [x|], b as [y|]; simpl; try done.
  intros H. apply negb_true_iff in H. apply negb_false_iff.
  destruct (Qlt_le_dec x y) as [Hlt|Hle].
  - apply Qle_bool_iff, Qlt_le_weak, Hlt.
  - apply Qle_bool_iff in Hle. congruence.
Qed.

Section Properties.

Context {LT : LibraryTypes} {L : Library}.

(** ** [enumerate_gemm_operators] *)

Lemma flat_map_list_prod {X Y Z' : Type} (f : X -> Y -> Z') (l : list X) (l' : list Y) :
  flat_map (fun x => map (f x) l') l = map (fun p => f p.1 p.2) (list_prod l l').
Proof.
  induction l as [|x l IH]; simpl; [reflexivity|].
  rewrite map_app, map_map, IH. reflexivity.
Qed.

(** C8. [enumerate_gemm_operators] returns one candidate per pair of the
    Cartesian product of the tile descriptions and the alignment
    constraints, in the order of the nested loops (tiles outside,
    alignments inside); each candidate is the loop body at its pair, and
    its operation has the [LinearCombination] epilogue. *)
Theorem enumerate_gemm_operators_cartesian
    (tiles : list TileDescription) (dt : data_type_t) (aligns : list Z)
    (swz : option SwizzlingFunctor) :
  let ops := enumerate_gemm_operators tiles dt aligns swz in
  ops = map (fun p => enumerate_one dt (default Identity8 swz) p.1 p.2)
            (list_prod tiles aligns)
  /\ map (fun c => (tile_description c, alignment c)) ops = list_prod tiles aligns
  /\ Forall (fun c => epilogue_functor (op c) = LinearCombination
                      /\ op_tile_description (op c) = tile_description c
                      /\ td_alignment (A (op c)) = alignment c) ops.
Proof.
  intros ops.
  assert (Hops : ops = map (fun p => enumerate_one dt (default Identity8 swz) p.1 p.2)
                           (list_prod tiles aligns)).
  { unfold ops, enumerate_gemm_operators. apply flat_map_list_prod. }
  split; [exact Hops|]. rewrite Hops. clear Hops ops.
  destruct dt as [[[ea eb] ec] ee].
  split.
  - rewrite map_map. simpl. induction (list_prod tiles aligns) as [|[t a] l IH];
      simpl; [reflexivity|]. f_equal. exact IH.
  - apply Forall_map. apply Forall_forall. intros [t a] _. simpl. auto.
Qed.

(** ** [create_gemm_operator_with_epilogue] *)

(** C9. For every input, [create_gemm_operator_with_epilogue] raises
    [KeyError] when the operator type is not in [EPILOGUE_MAP]; otherwise
    it returns the procedural name and the emitted definition of one
    operation whose operand A is row-major, B column-major and C
    row-major, all at the given alignment, and whose swizzling functor is
    [Batched] when [batched] is set and the caller's otherwise.  The
    result is a function of the arguments alone. *)
Theorem create_gemm_operator_with_epilogue_operands
    (op_type : string) (tile : TileDescription) (dt : data_type_t)
    (align : Z) (swz : SwizzlingFunctor) (batched : bool) :
  match EPILOGUE_MAP op_type with
  | None =>
      create_gemm_operator_with_epilogue op_type tile dt align swz batched
      = Raise KeyError
  | Some (epilogue, no_beta_scaling) =>
      exists o : GemmOperation,
        create_gemm_operator_with_epilogue op_type tile dt align swz batched
        = Ok (procedural_name o, kernel_emit o (Some no_beta_scaling) batched)
        /\ A o = mkTensorDescription dt.1.1.1 RowMajor align
        /\ B o = mkTensorDescription dt.1.1.2 ColumnMajor align
        /\ C o = mkTensorDescription dt.1.2 RowMajor align
        /\ swizzling_functor o = (if batched then Batched else swz)
        /\ epilogue_functor o = epilogue
        /\ element_epilogue o = dt.2
        /\ op_tile_description o = tile
        /\ arch o = minimum_compute_capability tile
  end.
Proof.
  unfold create_gemm_operator_with_epilogue.
  destruct dt as [[[ea eb] ec] ee].
  destruct (EPILOGUE_MAP op_type) as [[e nb]|]; simpl; [|reflexivity].
  eexists. split; [reflexivity|]. simpl. repeat split; reflexivity.
Qed.

(** ** [select_op]: the cache *)

(** C5. When the cache holds an entry for (M, N, K), [select_op] returns
    that entry and leaves the profiler as it was: the cache, the engine
    state and the trace of generator and engine calls are unchanged,
    whatever [out_dtype], [profile_all] and [use_multiprocessing] are. *)
Theorem select_op_cache_hit (self : Profiler) (M N K : Z) (c : Candidate)
    (out_dtype : string) (profile_all use_multiprocessing : bool) :
  cache self !! (M, N, K) = Some c ->
  select_op self M N K out_dtype profile_all use_multiprocessing = (Ok c, self).
Proof.
  intros H. unfold select_op. rewrite H. reflexivity.
Qed.

(** What [select_op] returns is in the cache afterwards, so a second call
    for the same shape returns it again and does nothing else. *)
Lemma select_op_ok_cached (self self' : Profiler) (M N K : Z) (c : Candidate)
    (out_dtype : string) (profile_all use_multiprocessing : bool) :
  select_op self M N K out_dtype profile_all use_multiprocessing = (Ok c, self') ->
  cache self' !! (M, N, K) = Some c.
Proof.
  unfold select_op.
  destruct (cache self !! (M, N, K)) eqn:Hhit; [intros [= <- <-]; exact Hhit|].
  destruct (generate self out_dtype) as [ops self1].
  destruct (do ops0 <- ops; filter_raising _ ops0) as [feas|]; [|discriminate].
  destruct (eval_loop _ _ _ _ _ _) as [[x e] evs].
  destruct x as [w|timed].
  - intros [= <- <-]. simpl. apply lookup_insert_eq.
  - destruct (min_by_runtime timed); [|discriminate].
    intros [= <- <-]. simpl. apply lookup_insert_eq.
Qed.

Lemma select_op_repeat (self self' : Profiler) (M N K : Z) (c : Candidate)
    (out_dtype out_dtype' : string)
    (profile_all use_multiprocessing profile_all' use_multiprocessing' : bool) :
  select_op self M N K out_dtype profile_all use_multiprocessing = (Ok c, self') ->
  select_op self' M N K out_dtype' profile_all' use_multiprocessing' = (Ok c, self').
Proof.
  intros H. apply select_op_ok_cached in H. unfold select_op. rewrite H.
  reflexivity.
Qed.

(** ** The evaluation loop *)

Lemma evaluate_all_runtime (M N K : Z) (ops : list Candidate) :
  forall e, Forall2 (fun c c' => exists r, c' = set_runtime c r)
                    ops (evaluate_all M N K e ops).1.
Proof.
  induction ops as [|c ops IH]; intros e; simpl; [constructor|].
  destruct (evaluate e c [M; N; K]) as [out e1].
  specialize (IH e1). destruct (evaluate_all M N K e1 ops) as [rest e2].
  simpl in *. constructor; [eexists; reflexivity | exact IH].
Qed.

Lemma evaluate_all_keyed (M N K : Z) (ops : list Candidate) (e : Engine) :
  Forall (fun c => is_Some (runtime_ c)) (evaluate_all M N K e ops).1.
Proof.
  pose proof (evaluate_all_runtime M N K ops e) as H.
  induction H as [|c c' l l' [r ->] _ IH]; constructor; [|exact IH].
  simpl. eexists; reflexivity.
Qed.

(** With [profile_all] the loop never returns: it evaluates every member. *)
Lemma eval_loop_profile_all (M N K : Z) (ops : list Candidate) :
  forall e,
    eval_loop true M N K e ops =
    (Fallthrough (evaluate_all M N K e ops).1, (evaluate_all M N K e ops).2,
     evaluate_events M N K ops).
Proof.
  induction ops as [|c ops IH]; intros e; simpl; [reflexivity|].
  destruct (evaluate e c [M; N; K]) as [out e1].
  rewrite andb_false_r, (IH e1).
  destruct (evaluate_all M N K e1 ops) as [rest e2]. reflexivity.
Qed.

(** Without [profile_all] the loop also runs to its end when no runtime is
    finite. *)
Lemma eval_loop_all_inf (M N K : Z) (ops : list Candidate) :
  forall e,
    Forall (fun c => runtime_ c = Some Inf) (evaluate_all M N K e ops).1 ->
    eval_loop false M N K e ops =
    (Fallthrough (evaluate_all M N K e ops).1, (evaluate_all M N K e ops).2,
     evaluate_events M N K ops).
Proof.
  induction ops as [|c ops IH]; intros e; simpl; [reflexivity|].
  destruct (evaluate e c [M; N; K]) as [out e1].
  specialize (IH e1). destruct (evaluate_all M N K e1 ops) as [rest e2].
  simpl. intros H. apply Forall_cons in H as [Hc Hrest]. simpl in Hc.
  injection Hc as ->. simpl. rewrite (IH Hrest). reflexivity.
Qed.

(** Without [profile_all] the loop returns at the first finite runtime. *)
Lemma eval_loop_first_finite (M N K : Z) (l1 l2 : list Candidate)
    (c : Candidate) (t : Q) :
  forall e e1 e2,
    (evaluate_all M N K e l1).2 = e1 ->
    Forall (fun c => runtime_ c = Some Inf) (evaluate_all M N K e l1).1 ->
    evaluate e1 c [M; N; K] = (Finite t, e2) ->
    eval_loop false M N K e (l1 ++ c :: l2) =
    (Return (set_runtime c (Finite t)), e2, evaluate_events M N K (l1 ++ [c])).
Proof.
  induction l1 as [|c1 l1 IH]; intros e e1 e2; simpl.
  - intros <- _ Hc. rewrite Hc. reflexivity.
  - destruct (evaluate e c1 [M; N; K]) as [out e']. specialize (IH e').
    destruct (evaluate_all M N K e' l1) as [rest e''] eqn:Hall. simpl in *.
    intros <- H Hc. apply Forall_cons in H as [Hc1 Hrest]. simpl in Hc1.
    injection Hc1 as ->. simpl.
    rewrite (IH e'' e2 eq_refl Hrest Hc). reflexivity.
Qed.

(** ** [min] by runtime *)

Lemma min_loop_first_min (l : list Candidate) :
  forall (pre : list Candidate) (ib : nat) (best : Candidate) (kbest : runtime),
    first_min pre ib best kbest ->
    Forall (fun c => is_Some (runtime_ c)) l ->
    exists i w kw, min_loop best kbest l = Ok w /\ first_min (pre ++ l) i w kw.
Proof.
  induction l as [|c l IH]; intros pre ib best kbest Hfm Hkeys; simpl.
  - exists ib, best, kbest. rewrite app_nil_r. auto.
  - apply Forall_cons in Hkeys as [[k Hk] Hkeys].
    unfold runtime_key. rewrite Hk. simpl.
    destruct Hfm as (Hib & Hkb & Hmin & Hfirst).
    replace (pre ++ c :: l) with ((pre ++ [c]) ++ l)
      by (rewrite <- app_assoc; reflexivity).
    destruct (rt_ltb k kbest) eqn:Hlt.
    + apply (IH (pre ++ [c]) (length pre) c k); [|exact Hkeys].
      repeat split.
      * rewrite lookup_app_r by lia. rewrite Nat.sub_diag. reflexivity.
      * exact Hk.
      * intros c' k' Hin Hk'. apply elem_of_app in Hin as [Hin|Hin].
        -- apply rt_ltb_asym. eapply rt_ltb_le_trans; eauto.
        -- apply list_elem_of_singleton in Hin as ->.
           assert (k' = k) as -> by congruence. apply rt_ltb_irrefl.
      * intros j c' k' Hj Hl Hk'. rewrite lookup_app_l in Hl by exact Hj.
        eapply rt_ltb_le_trans; [exact Hlt|].
        eapply Hmin; [|exact Hk']. eapply list_elem_of_lookup_2; eauto.
    + apply (IH (pre ++ [c]) ib best kbest); [|exact Hkeys].
      assert (Hib' : (ib < length pre)%nat) by (eapply lookup_lt_Some; eauto).
      repeat split.
      * rewrite lookup_app_l by exact Hib'. exact Hib.
      * exact Hkb.
      * intros c' k' Hin Hk'. apply elem_of_app in Hin as [Hin|Hin].
        -- eauto.
        -- apply list_elem_of_singleton in Hin as ->.
           assert (k' = k) as -> by congruence. exact Hlt.
      * intros j c' k' Hj Hl Hk'. rewrite lookup_app_l in Hl by lia. eauto.
Qed.

Lemma min_by_runtime_first_min (l : list Candidate) :
  l <> [] ->
  Forall (fun c => is_Some (runtime_ c)) l ->
  exists i w kw, min_by_runtime l = Ok w /\ first_min l i w kw.
Proof.
  destruct l as [|c l]; [done|]. intros _ Hkeys.
  apply Forall_cons in Hkeys as [[k Hk] Hkeys]. simpl.
  unfold runtime_key. rewrite Hk. simpl.
  apply (min_loop_first_min l [c] 0%nat c k); [|exact Hkeys].
  repeat split; [exact Hk | |].
  - intros c' k' Hin Hk'. apply list_elem_of_singleton in Hin as ->.
    assert (k' = k) as -> by congruence. apply rt_ltb_irrefl.
  - intros j c' k' Hj. lia.
Qed.

(** ** [select_op]: the search *)

(** [select_op] past the cache lookup, the generator and the filter. *)
Lemma select_op_miss (self : Profiler) (M N K : Z) (out_dtype : string)
    (profile_all use_multiprocessing : bool)
    (gen : string -> op_creator_t -> result (list Candidate))
    (catalog feas : list Candidate) :
  cache self !! (M, N, K) = None ->
  GENERATOR_FUNC_TABLE (sm self) = Some gen ->
  gen out_dtype enumerate_gemm_operators = Ok catalog ->
  feasible M N K catalog = Ok feas ->
  select_op self M N K out_dtype profile_all use_multiprocessing =
  let self1 := with_engine self (engine self) [EvEnumerate out_dtype] in
  let self2 :=
    if profile_all then
      with_engine self1 (compile_all (engine self) feas use_multiprocessing)
        [EvCompileAll (map name feas) use_multiprocessing]
    else self1 in
  let '(x, e, evs) := eval_loop profile_all M N K (engine self2) feas in
  let self3 := with_engine self2 e evs in
  match x with
  | Return w => (Ok w, with_cache self3 (<[(M, N, K) := w]> (cache self3)))
  | Fallthrough ops =>
      match min_by_runtime ops with
      | Ok w => (Ok w, with_cache self3 (<[(M, N, K) := w]> (cache self3)))
      | Raise e => (Raise e, self3)
      end
  end.
Proof.
  intros Hmiss Hgen Hcat Hfeas. unfold select_op, generate, feasible in *.
  rewrite Hmiss, Hgen, Hcat. simpl. rewrite Hfeas. reflexivity.
Qed.

(** C2. On a cache miss with [profile_all] set, when some feasible
    candidate gets a finite runtime, [select_op] returns a candidate whose
    runtime is finite and is the least of the runtimes of all feasible
    candidates; every feasible candidate before it in enumeration order
    has a strictly larger runtime, so of two candidates with the least
    runtime the first is returned.  The winner is stored in the cache
    under (M, N, K); every feasible candidate has been compiled and
    evaluated. *)
Theorem select_op_profile_all_minimum (self : Profiler) (M N K : Z)
    (out_dtype : string) (use_multiprocessing : bool)
    (gen : string -> op_creator_t -> result (list Candidate))
    (catalog feas timed : list Candidate) (e' : Engine) :
  cache self !! (M, N, K) = None ->
  GENERATOR_FUNC_TABLE (sm self) = Some gen ->
  gen out_dtype enumerate_gemm_operators = Ok catalog ->
  feasible M N K catalog = Ok feas ->
  evaluate_all M N K (compile_all (engine self) feas use_multiprocessing) feas
  = (timed, e') ->
  (exists c t, c ∈ timed /\ runtime_ c = Some (Finite t)) ->
  exists (i : nat) (w : Candidate) (t : Q),
    select_op self M N K out_dtype true use_multiprocessing =
    (Ok w,
     mkProfiler (sm self) (<[(M, N, K) := w]> (cache self)) e'
       (trace self ++ EvEnumerate out_dtype
          :: EvCompileAll (map name feas) use_multiprocessing
          :: evaluate_events M N K feas))
    /\ first_min timed i w (Finite t)
    /\ exists c, feas !! i = Some c /\ w = set_runtime c (Finite t).
Proof.
  intros Hmiss Hgen Hcat Hfeas Hall (c0 & t0 & Hin0 & Hk0).
  rewrite (select_op_miss _ _ _ _ _ _ _ _ _ _ Hmiss Hgen Hcat Hfeas).
  cbv zeta. simpl engine. rewrite eval_loop_profile_all, Hall. simpl.
  pose proof (evaluate_all_keyed M N K feas
                (compile_all (engine self) feas use_multiprocessing)) as Hkeys.
  pose proof (evaluate_all_runtime M N K feas
                (compile_all (engine self) feas use_multiprocessing)) as Hrt.
  rewrite Hall in Hkeys, Hrt. simpl in Hkeys, Hrt.
  destruct (min_by_runtime_first_min timed) as (i & w & kw & Hmin & Hfm);
    [intros ->; inversion Hin0 | exact Hkeys |].
  assert (exists t, kw = Finite t) as [t ->].
  { destruct kw as [t|]; [eexists; reflexivity|].
    destruct Hfm as (_ & _ & Hle & _). specialize (Hle c0 _ Hin0 Hk0). done. }
  exists i, w, t. rewrite Hmin. split; [|split; [exact Hfm|]].
  - unfold with_cache, with_engine. simpl. rewrite <- !app_assoc. reflexivity.
  - destruct Hfm as (Hi & Hkw & _).
    destruct (Forall2_lookup_r _ _ _ _ _ Hrt Hi) as (c & Hc & r & ->).
    exists c. split; [exact Hc|]. simpl in Hkw. congruence.
Qed.

(** C3. On a cache miss without [profile_all], when the feasible
    candidates are [l1 ++ c :: l2], every member of [l1] evaluates to the
    infinite sentinel and [c] evaluates to a finite runtime, [select_op]
    returns [c] with that runtime and stores it in the cache under
    (M, N, K); the engine is left in the state reached by evaluating [c]
    and the only engine calls are the evaluations of [l1] and of [c]: no
    member of [l2] is evaluated and nothing is compiled in a batch. *)
Theorem select_op_first_finite (self : Profiler) (M N K : Z)
    (out_dtype : string) (use_multiprocessing : bool)
    (gen : string -> op_creator_t -> result (list Candidate))
    (catalog l1 l2 timed1 : list Candidate) (c : Candidate) (t : Q)
    (e1 e2 : Engine) :
  cache self !! (M, N, K) = None ->
  GENERATOR_FUNC_TABLE (sm self) = Some gen ->
  gen out_dtype enumerate_gemm_operators = Ok catalog ->
  feasible M N K catalog = Ok (l1 ++ c :: l2) ->
  evaluate_all M N K (engine self) l1 = (timed1, e1) ->
  Forall (fun c' => runtime_ c' = Some Inf) timed1 ->
  evaluate e1 c [M; N; K] = (Finite t, e2) ->
  select_op self M N K out_dtype false use_multiprocessing =
  (Ok (set_runtime c (Finite t)),
   mkProfiler (sm self) (<[(M, N, K) := set_runtime c (Finite t)]> (cache self))
     e2 (trace self ++ EvEnumerate out_dtype :: evaluate_events M N K (l1 ++ [c]))).
Proof.
  intros Hmiss Hgen Hcat Hfeas Hall Hinf Hc.
  rewrite (select_op_miss _ _ _ _ _ _ _ _ _ _ Hmiss Hgen Hcat Hfeas).
  cbv zeta. simpl engine.
  rewrite (eval_loop_first_finite M N K l1 l2 c t (engine self) e1 e2);
    [| rewrite Hall; reflexivity | rewrite Hall; exact Hinf | exact Hc].
  unfold with_cache, with_engine. simpl. rewrite <- !app_assoc. reflexivity.
Qed.

(** C1 (as the code has it). On a cache miss, in either mode: when no
    candidate is feasible, [select_op] raises [ValueError] and the cache
    is unchanged; when there are feasible candidates and every one of them
    evaluates to the infinite sentinel, [select_op] returns the first
    feasible candidate, with the infinite runtime, and stores it in the
    cache under (M, N, K). *)
Theorem select_op_exhausted (self : Profiler) (M N K : Z)
    (out_dtype : string) (profile_all use_multiprocessing : bool)
    (gen : string -> op_creator_t -> result (list Candidate))
    (catalog feas timed : list Candidate) (e' : Engine) :
  cache self !! (M, N, K) = None ->
  GENERATOR_FUNC_TABLE (sm self) = Some gen ->
  gen out_dtype enumerate_gemm_operators = Ok catalog ->
  feasible M N K catalog = Ok feas ->
  evaluate_all M N K
    (if profile_all
     then compile_all (engine self) feas use_multiprocessing
     else engine self) feas = (timed, e') ->
  Forall (fun c => runtime_ c = Some Inf) timed ->
  exists self',
    match feas with
    | [] =>
        select_op self M N K out_dtype profile_all use_multiprocessing
        = (Raise ValueError, self')
        /\ cache self' = cache self
    | c :: _ =>
        select_op self M N K out_dtype profile_all use_multiprocessing
        = (Ok (set_runtime c Inf), self')
        /\ cache self' = <[(M, N, K) := set_runtime c Inf]> (cache self)
    end.
Proof.
  intros Hmiss Hgen Hcat Hfeas Hall Hinf.
  rewrite (select_op_miss _ _ _ _ _ _ _ _ _ _ Hmiss Hgen Hcat Hfeas).
  cbv zeta.
  assert (Hloop :
    eval_loop profile_all M N K
      (if profile_all
       then compile_all (engine self) feas use_multiprocessing
       else engine self) feas
    = (Fallthrough timed, e', evaluate_events M N K feas)).
  { destruct profile_all.
    - rewrite eval_loop_profile_all, Hall. reflexivity.
    - rewrite eval_loop_all_inf; rewrite Hall; [reflexivity | exact Hinf]. }
  replace (engine (if profile_all then _ else _))
    with (if profile_all
          then compile_all (engine self) feas use_multiprocessing
          else engine self) by (destruct profile_all; reflexivity).
  rewrite Hloop.
  destruct feas as [|c feas].
  - simpl in Hall. injection Hall as <- <-. simpl.
    eexists. split; [reflexivity|]. destruct profile_all; reflexivity.
  - simpl in Hall.
    destruct (evaluate _ c [M; N; K]) as [out e1].
    destruct (evaluate_all M N K e1 feas) as [rest e2] eqn:Hrest.
    injection Hall as <- <-.
    apply Forall_cons in Hinf as [Hout Hinf]. simpl in Hout.
    injection Hout as ->.
    assert (Hmin : min_by_runtime (set_runtime c Inf :: rest)
                   = Ok (set_runtime c Inf)).
    { simpl. clear Hrest Hloop. induction rest as [|c' rest IH]; simpl; [reflexivity|].
      apply Forall_cons in Hinf as [Hc' Hinf]. unfold runtime_key.
      rewrite Hc'. simpl. apply IH, Hinf. }
    rewrite Hmin. eexists. split; [reflexivity|].
    destruct profile_all; reflexivity.
Qed.

(** ** [get_default] *)

Lemma create_for_candidate (op_type : string) (c : Candidate) (batched : bool) :
  create_gemm_operator_with_epilogue op_type (tile_description c)
    (data_type c) (alignment c) (swizzle_functor c) batched =
  match EPILOGUE_MAP op_type with
  | None => Raise KeyError
  | Some (e, nb) =>
      Ok (procedural_name (reinstantiated c e batched),
          kernel_emit (reinstantiated c e batched) (Some nb) batched)
  end.
Proof.
  unfold create_gemm_operator_with_epilogue, reinstantiated.
  destruct (data_type c) as [[[ea eb] ec] ee].
  destruct (EPILOGUE_MAP op_type) as [[e nb]|]; reflexivity.
Qed.

(** [get_default] past the generator and the table of defaults. *)
Lemma get_default_lookup (self : Profiler) (op_type out_dtype : string)
    (batched : bool) (gen : string -> op_creator_t -> result (list Candidate))
    (catalog : list Candidate) (kernels : gmap string string) (d : string) :
  GENERATOR_FUNC_TABLE (sm self) = Some gen ->
  gen out_dtype enumerate_gemm_operators = Ok catalog ->
  DEFAULT_KERNELS !! sm self = Some kernels ->
  kernels !! out_dtype = Some d ->
  get_default self op_type out_dtype batched =
  (let filtered := List.filter (fun c => bool_decide (name c = d)) catalog in
   do _ <- assert (bool_decide (length filtered = 1%nat));
   do c <- index0 filtered;
   do r <- create_gemm_operator_with_epilogue op_type (tile_description c)
             (data_type c) (alignment c) (swizzle_functor c) batched;
   Ok (update_name_opdef c r.1 r.2),
   with_engine self (engine self) [EvEnumerate out_dtype]).
Proof.
  intros Hgen Hcat Hks Hd. unfold get_default, generate.
  rewrite Hgen, Hcat. simpl. rewrite Hks. simpl. rewrite Hd. reflexivity.
Qed.

(** C10. For a supported architecture and output type, [get_default]
    fails its assertion exactly when the number of catalog candidates that
    carry the default name is not one: when the name is absent and also
    when several candidates carry it.  It returns a candidate only when
    exactly one candidate carries the name. *)
Theorem get_default_assertion (self : Profiler) (op_type out_dtype : string)
    (batched : bool) (gen : string -> op_creator_t -> result (list Candidate))
    (catalog : list Candidate) (kernels : gmap string string) (d : string) :
  GENERATOR_FUNC_TABLE (sm self) = Some gen ->
  gen out_dtype enumerate_gemm_operators = Ok catalog ->
  DEFAULT_KERNELS !! sm self = Some kernels ->
  kernels !! out_dtype = Some d ->
  let n := length (List.filter (fun c => bool_decide (name c = d)) catalog) in
  ((get_default self op_type out_dtype batched).1 = Raise AssertionError
   <-> n <> 1%nat)
  /\ (forall c, (get_default self op_type out_dtype batched).1 = Ok c ->
                n = 1%nat).
Proof.
  intros Hgen Hcat Hks Hd n.
  rewrite (get_default_lookup _ _ _ _ _ _ _ _ Hgen Hcat Hks Hd).
  cbv zeta. simpl fst. fold n.
  destruct (decide (n = 1%nat)) as [Hn|Hn].
  - rewrite (bool_decide_eq_true_2 _ Hn). simpl.
    destruct (List.filter _ catalog) as [|c [|c' l]] eqn:Hf; try done.
    simpl. rewrite create_for_candidate.
    destruct (EPILOGUE_MAP op_type) as [[e nb]|]; simpl;
      (split; [split; [discriminate | intros H; done] | intros _ _; exact Hn]).
  - rewrite (bool_decide_eq_false_2 _ Hn). simpl. split; [|discriminate].
    split; [intros _; exact Hn | reflexivity].
Qed.

(** C6 (as the code has it). For a supported architecture and output
    type whose default name is carried by exactly one catalog candidate
    [c], and an operator type of [EPILOGUE_MAP], [get_default] returns [c]
    with its tile description, alignment, data type and swizzling functor
    unchanged, with ["opdef"] the kernel emitted for the operation
    re-instantiated with the requested epilogue, and with ["name"] the
    procedural name of that operation.  That name is the default name when
    [c] is as [enumerate_gemm_operators] builds it and the procedural name
    of an operation depends neither on its epilogue nor on its swizzling
    functor. *)
Theorem get_default_unique (self : Profiler) (op_type out_dtype : string)
    (batched : bool) (gen : string -> op_creator_t -> result (list Candidate))
    (catalog : list Candidate) (kernels : gmap string string) (d : string)
    (c : Candidate) (e : EpilogueFunctor) (nb : bool) :
  GENERATOR_FUNC_TABLE (sm self) = Some gen ->
  gen out_dtype enumerate_gemm_operators = Ok catalog ->
  DEFAULT_KERNELS !! sm self = Some kernels ->
  kernels !! out_dtype = Some d ->
  List.filter (fun c' => bool_decide (name c' = d)) catalog = [c] ->
  EPILOGUE_MAP op_type = Some (e, nb) ->
  exists c' : Candidate,
    get_default self op_type out_dtype batched
    = (Ok c', with_engine self (engine self) [EvEnumerate out_dtype])
    /\ tile_description c' = tile_description c
    /\ alignment c' = alignment c
    /\ swizzle_functor c' = swizzle_functor c
    /\ data_type c' = data_type c
    /\ name c' = procedural_name (reinstantiated c e batched)
    /\ opdef c' = Some (kernel_emit (reinstantiated c e batched) (Some nb) batched)
    /\ (c = enumerate_one (data_type c) (swizzle_functor c)
                          (tile_description c) (alignment c) ->
        (forall (o : GemmOperation) e' s',
           procedural_name
             (mkGemmOperation (arch o) (op_tile_description o) (A o) (B o)
                (C o) (element_epilogue o) e' s')
           = procedural_name o) ->
        name c' = d).
Proof.
  intros Hgen Hcat Hks Hd Hf He.
  rewrite (get_default_lookup _ _ _ _ _ _ _ _ Hgen Hcat Hks Hd).
  cbv zeta. rewrite Hf. simpl. rewrite create_for_candidate, He. simpl.
  eexists. split; [reflexivity|]. simpl. repeat split.
  intros Hc Hname.
  assert (Hcd : name c = d).
  { assert (Hin : In c (List.filter (fun c' => bool_decide (name c' = d)) catalog))
      by (rewrite Hf; left; reflexivity).
    apply filter_In in Hin as [_ Hb]. apply bool_decide_eq_true in Hb. exact Hb. }
  apply (f_equal name) in Hc. rewrite <- Hcd, Hc.
  unfold enumerate_one, reinstantiated.
  destruct (data_type c) as [[[ea eb] ec] ee]. simpl.
  exact (Hname (mkGemmOperation _ _ _ _ _ _ LinearCombination
                  (swizzle_functor c)) e _).
Qed.

End Properties.

(** * The properties on the instances *)

(** ** [check_align] on kernel names

    [select_op] passes the names of catalog candidates to [check_align]
    (procedural names such as those of [DEFAULT_KERNELS]); they hold no
    bar, so in them [align] is never followed by one. *)

Lemma no_bar_bar_free (s : string) :
  Forall (fun c => c <> "|"%char) (String.list_ascii_of_string s) ->
  bar_free s = true.
Proof.
  induction s as [|c s IH]; [reflexivity|].
  intros H.
  assert (Htail : Forall (fun c0 => c0 <> "|"%char) (String.list_ascii_of_string s))
    by (cbn [String.list_ascii_of_string] in H; exact (Forall_inv_tail H)).
  cbn [bar_free]. rewrite (IH Htail), andb_true_r.
  unfold bar_at.
  destruct (after_align (String c s)) as [[|c' r]|] eqn:Hafter; try reflexivity.
  apply after_align_Some in Hafter. rewrite Hafter in H. simpl in H.
  do 5 apply Forall_inv_tail in H. apply Forall_inv in H.
  apply negb_true_iff, bool_decide_eq_false. exact H.
Qed.

(** C4. For every kernel name (a name in which [align] is not followed
    by a bar) that carries exactly one alignment token, of alignment [a],
    and all M, N and K, positive or not, [check_align] returns a boolean,
    which is true if and only if [a] divides each of M, N and K.  It is
    always true for [a = 1], and false for [a = 8] when one of M, N and K
    is one less than a multiple of 8. *)
Theorem check_align_divisible (op_name : string) (a M N K : Z) :
  bar_free op_name = true ->
  alignment_tokens op_name = [a] ->
  exists b : bool,
    check_align op_name M N K = Ok b
    /\ (b = true <-> (a | M) /\ (a | N) /\ (a | K))
    /\ (a = 1 -> b = true)
    /\ (a = 8 ->
        (exists k, M = 8 * k - 1) \/ (exists k, N = 8 * k - 1)
        \/ (exists k, K = 8 * k - 1) ->
        b = false).
Proof.
  intros Hfree Htok. rewrite (check_align_bar_free _ _ _ _ Hfree), Htok.
  eexists. split; [reflexivity|].
  pose proof (alignment_tokens_values op_name) as Hv. rewrite Htok in Hv.
  apply Forall_cons in Hv as [Ha _].
  assert (Ha0 : a <> 0) by lia. cbn [forallb].
  split; [|split].
  - rewrite !andb_true_iff, !Z.eqb_eq, <- !Z.mod_divide by assumption. tauto.
  - intros ->. rewrite !Z.mod_1_r. reflexivity.
  - intros -> Hone.
    destruct (M `mod` 8 =? 0) eqn:EM; [|reflexivity].
    destruct (N `mod` 8 =? 0) eqn:EN; [|reflexivity].
    destruct (K `mod` 8 =? 0) eqn:EK; [|reflexivity].
    exfalso. apply Z.eqb_eq in EM, EN, EK.
    pose proof (Z.div_mod M 8) as HM. pose proof (Z.div_mod N 8) as HN.
    pose proof (Z.div_mod K 8) as HK.
    destruct Hone as [[k Hk]|[[k Hk]|[k Hk]]]; lia.
Qed.

Lemma check_align_divisible_witness :
  check_align "cutlass_tensorop_h1688gemm_64x64_32x2_tn_align8" 64 63 64
  = Ok false
  /\ check_align "cutlass_tensorop_h1688gemm_128x64_32x2_tn_align1" 65 63 7
     = Ok true.
Proof.
  split.
  - destruct (check_align_divisible
                "cutlass_tensorop_h1688gemm_64x64_32x2_tn_align8" 8 64 63 64)
      as (b & Hb & _ & _ & H8); [vm_compute; reflexivity ..|].
    rewrite Hb. f_equal. apply H8; [reflexivity|].
    right; left. exists 8. reflexivity.
  - destruct (check_align_divisible
                "cutlass_tensorop_h1688gemm_128x64_32x2_tn_align1" 1 65 63 7)
      as (b & Hb & _ & H1 & _); [vm_compute; reflexivity ..|].
    rewrite Hb. f_equal. apply H1. reflexivity.
Defined.

(** C7. For every kernel name (a name in which [align] is not followed
    by a bar), [check_align] fails its assertion exactly when the name
    carries no alignment token or more than one, and raises nothing
    else.  A name that carries exactly one alignment token, as the naming
    convention of the catalog has it, never reaches the failure: the call
    returns a boolean. *)
Theorem check_align_assertion_tokens (op_name : string) (M N K : Z) :
  bar_free op_name = true ->
  (check_align op_name M N K = Raise AssertionError
   <-> (alignment_tokens op_name = []
        \/ (1 < length (alignment_tokens op_name))%nat))
  /\ (forall e, check_align op_name M N K = Raise e -> e = AssertionError)
  /\ (length (alignment_tokens op_name) = 1%nat ->
      exists b, check_align op_name M N K = Ok b).
Proof.
  intros Hfree. rewrite (check_align_bar_free _ _ _ _ Hfree).
  destruct (alignment_tokens op_name) as [|a [|a' l]]; simpl.
  - split; [split; auto|]. split; [intros e [= <-]; reflexivity | lia].
  - split; [split; [discriminate | intros [H|H]; [discriminate | lia]]|].
    split; [discriminate | intros _; eexists; reflexivity].
  - split; [split; [intros _; right; lia | reflexivity]|].
    split; [intros e [= <-]; reflexivity | lia].
Qed.

Lemma check_align_assertion_tokens_witness :
  check_align "cutlass_tensorop_h1688gemm_128x64_32x2_tn" 64 64 64
  = Raise AssertionError
  /\ check_align "cutlass_tensorop_h1688gemm_align8_128x64_32x2_tn_align4"
       64 64 64 = Raise AssertionError
  /\ exists b,
       check_align "cutlass_tensorop_h1688gemm_128x64_32x2_tn_align1" 64 64 64
       = Ok b.
Proof.
  split; [|split].
  - apply (proj1 (check_align_assertion_tokens
                    "cutlass_tensorop_h1688gemm_128x64_32x2_tn" 64 64 64
                    ltac:(vm_compute; reflexivity))).
    left. vm_compute; reflexivity.
  - apply (proj1 (check_align_assertion_tokens
                    "cutlass_tensorop_h1688gemm_align8_128x64_32x2_tn_align4"
                    64 64 64 ltac:(vm_compute; reflexivity))).
    right. vm_compute. lia.
  - apply (proj2 (proj2 (check_align_assertion_tokens
                    "cutlass_tensorop_h1688gemm_128x64_32x2_tn_align1"
                    64 64 64 ltac:(vm_compute; reflexivity)))).
    vm_compute; reflexivity.
Defined.

(** Where a bar follows [align] the pattern matches it as well: a match
    more than the tokens of the name, and a match that is no integer. *)
Example check_align_with_bar :
  findall_align "cutlass_gemm_align|_align8" = ["align|"; "align8"]
  /\ alignment_tokens "cutlass_gemm_align|_align8" = [8]
  /\ check_align "cutlass_gemm_align|_align8" 8 8 8 = Raise AssertionError
  /\ findall_align "cutlass_gemm_align|" = ["align|"]
  /\ alignment_tokens "cutlass_gemm_align|" = []
  /\ check_align "cutlass_gemm_align|" 8 8 8 = Raise ValueError.
Proof. repeat split; vm_compute; reflexivity. Qed.

(** Without a bar the default kernel name behaves as specified. *)
Example check_align_default_name :
  bar_free "cutlass_tensorop_h1688gemm_128x64_32x2_tn_align1" = true
  /\ alignment_tokens "cutlass_tensorop_h1688gemm_128x64_32x2_tn_align1" = [1]
  /\ check_align "cutlass_tensorop_h1688gemm_128x64_32x2_tn_align1" 65 63 7 = Ok true
  /\ check_align "cutlass_tensorop_h1688gemm_64x64_32x2_tn_align8" 64 63 64 = Ok false.
Proof. repeat split; vm_compute; reflexivity. Qed.

(** ** [select_op] *)

(** C1 fails as stated: when every feasible candidate evaluates to the
    infinite sentinel, [select_op] does not fail; it returns a candidate
    with infinite runtime and stores it in the cache. *)
Lemma select_op_all_infinite_cached :
  let p := ex_profiler L_inf in
  let r := select_op (L := L_inf) p 64 64 64 "float16" true false in
  (forall e c, (evaluate (Library := L_inf) e c [64; 64; 64]).1 = Inf)
  /\ cache p !! (64, 64, 64) = None
  /\ exists w, r.1 = Ok w /\ runtime_ w = Some Inf
               /\ cache r.2 !! (64, 64, 64) = Some w.
Proof.
  split; [intros e c; reflexivity|].
  split; [vm_compute; reflexivity|].
  eexists. repeat split; vm_compute; reflexivity.
Qed.

Lemma select_op_exhausted_witness :
  (exists self',
     select_op (L := L_inf) (ex_profiler L_inf) 64 64 64 "float16" false false
     = (Ok (set_runtime (ex_candidate L_inf ex_t1 8) Inf), self')
     /\ cache self'
        = <[(64, 64, 64) := set_runtime (ex_candidate L_inf ex_t1 8) Inf]> ∅)
  /\ (exists self',
        select_op (L := L_aligned) (ex_profiler L_aligned) 65 64 64 "float16"
          true false
        = (Raise ValueError, self')
        /\ cache self' = ∅).
Proof.
  split.
  - eapply (select_op_exhausted (L := L_inf) (ex_profiler L_inf) 64 64 64
             "float16" false false _
             (ex_catalog L_inf ex_tiles [8; 4; 2; 1])
             (ex_catalog L_inf ex_tiles [8; 4; 2; 1]) _ _).
    + vm_compute; reflexivity.
    + reflexivity.
    + reflexivity.
    + vm_compute; reflexivity.
    + reflexivity.
    + vm_compute. repeat constructor.
  - eapply (select_op_exhausted (L := L_aligned) (ex_profiler L_aligned)
             65 64 64 "float16" true false _
             (ex_catalog L_aligned ex_tiles [8; 4; 2]) [] [] _).
    + vm_compute; reflexivity.
    + reflexivity.
    + reflexivity.
    + vm_compute; reflexivity.
    + reflexivity.
    + constructor.
Defined.

Lemma select_op_profile_all_minimum_witness :
  exists (i : nat) (w : Candidate) (t : Q),
    (select_op (L := L_ok) (ex_profiler L_ok) 64 64 64 "float16" true false).1
    = Ok w
    /\ first_min
         (evaluate_all (L := L_ok) 64 64 64 O
            (ex_catalog L_ok ex_tiles [8; 4; 2; 1])).1 i w (Finite t)
    /\ exists c, ex_catalog L_ok ex_tiles [8; 4; 2; 1] !! i = Some c
                 /\ w = set_runtime c (Finite t).
Proof.
  destruct (select_op_profile_all_minimum (L := L_ok) (ex_profiler L_ok)
              64 64 64 "float16" false
              (fun out_dtype op_creator =>
                 if bool_decide (out_dtype = "float16")
                 then Ok (op_creator ex_tiles ex_data_type [8; 4; 2; 1] None)
                 else Raise KeyError)
              (ex_catalog L_ok ex_tiles [8; 4; 2; 1])
              (ex_catalog L_ok ex_tiles [8; 4; 2; 1])
              (evaluate_all (L := L_ok) 64 64 64 O
                 (ex_catalog L_ok ex_tiles [8; 4; 2; 1])).1
              8%nat)
    as (i & w & t & Hsel & Hmin & Hc).
  - vm_compute; reflexivity.
  - reflexivity.
  - reflexivity.
  - vm_compute; reflexivity.
  - vm_compute; reflexivity.
  - exists (set_runtime (ex_candidate L_ok ex_t1 8) (Finite (3 # 1))), (3 # 1).
    split; [vm_compute; apply list_elem_of_here | reflexivity].
  - exists i, w, t. rewrite Hsel. auto.
Defined.

Lemma select_op_first_finite_witness :
  exists (w : Candidate) (self' : Profiler),
    select_op (L := L_late) (ex_profiler L_late) 64 64 64 "float16" false true
    = (Ok w, self')
    /\ name w = "cutlass_tensorop_h1688gemm_128x64_32x2_tn_align2"
    /\ runtime_ w = Some (Finite (5 # 1))
    /\ cache self' !! (64, 64, 64) = Some w
    /\ trace self'
       = [EvEnumerate "float16";
          EvEvaluate "cutlass_tensorop_h1688gemm_128x64_32x2_tn_align8" [64; 64; 64];
          EvEvaluate "cutlass_tensorop_h1688gemm_128x64_32x2_tn_align4" [64; 64; 64];
          EvEvaluate "cutlass_tensorop_h1688gemm_128x64_32x2_tn_align2" [64; 64; 64]].
Proof.
  eexists _, _. split.
  - eapply (select_op_first_finite (L := L_late) (ex_profiler L_late)
              64 64 64 "float16" true _
              (ex_catalog L_late ex_tiles [8; 4; 2; 1])
              [ex_candidate L_late ex_t1 8; ex_candidate L_late ex_t1 4]
              (ex_candidate L_late ex_t1 1 :: ex_catalog L_late [ex_t2] [8; 4; 2; 1])
              _ (ex_candidate L_late ex_t1 2) (5 # 1) 2%nat 3%nat).
    + vm_compute; reflexivity.
    + reflexivity.
    + reflexivity.
    + vm_compute; reflexivity.
    + reflexivity.
    + vm_compute. repeat constructor.
    + reflexivity.
  - repeat split; vm_compute; reflexivity.
Defined.

Lemma select_op_cache_hit_witness :
  let p := (select_op (L := L_ok) (ex_profiler L_ok) 64 64 64 "float16"
              true false).2 in
  exists c,
    cache p !! (64, 64, 64) = Some c
    /\ select_op (L := L_ok) p 64 64 64 "float32" false true = (Ok c, p).
Proof.
  intros p.
  exists (set_runtime (ex_candidate L_ok ex_t2 8) (Finite (2 # 1))).
  assert (H : cache p !! (64, 64, 64)
              = Some (set_runtime (ex_candidate L_ok ex_t2 8) (Finite (2 # 1))))
    by (vm_compute; reflexivity).
  split; [exact H|].
  apply (select_op_cache_hit (L := L_ok) p 64 64 64 _ "float32" false true H).
Defined.

(** ** [get_default] *)

(** C6 fails as stated: the default name occurs in the catalog of
    [L_dup], twice, and [get_default] fails its assertion. *)
Lemma get_default_duplicate_rejected :
  let p := ex_profiler L_dup in
  let d := "cutlass_tensorop_h1688gemm_128x64_32x2_tn_align1" in
  (exists kernels, DEFAULT_KERNELS !! sm p = Some kernels
                   /\ kernels !! "float16" = Some d)
  /\ (exists gen, GENERATOR_FUNC_TABLE (Library := L_dup) (sm p) = Some gen
                  /\ gen "float16" (enumerate_gemm_operators (L := L_dup))
                     = Ok (ex_catalog L_dup [ex_t1; ex_t1] [8; 4; 2; 1]))
  /\ ex_candidate L_dup ex_t1 1 ∈ ex_catalog L_dup [ex_t1; ex_t1] [8; 4; 2; 1]
  /\ name (ex_candidate L_dup ex_t1 1) = d
  /\ (get_default (L := L_dup) p "cutlass.dense" "float16" false).1
     = Raise AssertionError.
Proof.
  intros p d. split; [|split; [|split; [|split]]].
  - eexists. split; vm_compute; reflexivity.
  - eexists. split; reflexivity.
  - vm_compute. do 3 apply list_elem_of_further. apply list_elem_of_here.
  - vm_compute; reflexivity.
  - vm_compute; reflexivity.
Qed.

Lemma get_default_unique_witness :
  exists c' : Candidate,
    (get_default (L := L_ok) (ex_profiler L_ok) "cutlass.dense_bias_relu"
       "float16" true).1 = Ok c'
    /\ name c' = "cutlass_tensorop_h1688gemm_128x64_32x2_tn_align1"
    /\ tile_description c' = ex_t1
    /\ alignment c' = 1
    /\ swizzle_functor c' = ex_identity8
    /\ opdef c'
       = Some "gemm<cutlass_tensorop_h1688gemm_128x64_32x2_tn_align1, relu, batched>".
Proof.
  destruct (get_default_unique (L := L_ok) (ex_profiler L_ok)
              "cutlass.dense_bias_relu" "float16" true
              (fun out_dtype op_creator =>
                 if bool_decide (out_dtype = "float16")
                 then Ok (op_creator ex_tiles ex_data_type [8; 4; 2; 1] None)
                 else Raise KeyError)
              (ex_catalog L_ok ex_tiles [8; 4; 2; 1])
              {[ "float16" := "cutlass_tensorop_h1688gemm_128x64_32x2_tn_align1";
                 "float32" := "cutlass_tensorop_s1688gemm_f16_64x64_32x2_tn_align1" ]}
              "cutlass_tensorop_h1688gemm_128x64_32x2_tn_align1"
              (ex_candidate L_ok ex_t1 1) ex_linear_relu true)
    as (c' & Hget & Ht & Ha & Hs & _ & Hn & Ho & Hd).
  - reflexivity.
  - reflexivity.
  - vm_compute; reflexivity.
  - vm_compute; reflexivity.
  - vm_compute; reflexivity.
  - reflexivity.
  - exists c'. rewrite Hget, Ht, Ha, Hs, Ho.
    repeat split; try reflexivity.
    apply Hd; [reflexivity | intros o e' s'; reflexivity].
Defined.

Lemma get_default_assertion_witness :
  (get_default (L := L_dup) (ex_profiler L_dup) "cutlass.dense" "float16"
     false).1 = Raise AssertionError
  /\ (get_default (L := L_small) (ex_profiler L_small) "cutlass.dense"
        "float16" false).1 = Raise AssertionError.
Proof.
  split.
  - apply (get_default_assertion (L := L_dup) (ex_profiler L_dup)
             "cutlass.dense" "float16" false
             (fun out_dtype op_creator =>
                if bool_decide (out_dtype = "float16")
                then Ok (op_creator [ex_t1; ex_t1] ex_data_type [8; 4; 2; 1] None)
                else Raise KeyError)
             (ex_catalog L_dup [ex_t1; ex_t1] [8; 4; 2; 1])
             {[ "float16" := "cutlass_tensorop_h1688gemm_128x64_32x2_tn_align1";
                "float32" := "cutlass_tensorop_s1688gemm_f16_64x64_32x2_tn_align1" ]}
             "cutlass_tensorop_h1688gemm_128x64_32x2_tn_align1");
      try reflexivity; try (vm_compute; reflexivity).
    vm_compute. discriminate.
  - apply (get_default_assertion (L := L_small) (ex_profiler L_small)
             "cutlass.dense" "float16" false
             (fun out_dtype op_creator =>
                if bool_decide (out_dtype = "float16")
                then Ok (op_creator [ex_t2] ex_data_type [8; 4; 2; 1] None)
                else Raise KeyError)
             (ex_catalog L_small [ex_t2] [8; 4; 2; 1])
             {[ "float16" := "cutlass_tensorop_h1688gemm_128x64_32x2_tn_align1";
                "float32" := "cutlass_tensorop_s1688gemm_f16_64x64_32x2_tn_align1" ]}
             "cutlass_tensorop_h1688gemm_128x64_32x2_tn_align1");
      try reflexivity; try (vm_compute; reflexivity).
    vm_compute. discriminate.
Defined.

(** * Further properties of the profiler *)

(** ** The outcomes of [check_align] *)

Lemma match_align_Some (s tok : string) :
  match_align s = Some tok ->
  exists c, tok = ("align" ++ String c "")%string /\ in_align_class c = true.
Proof.
  unfold match_align. destruct (after_align s) as [[|c r]|]; try discriminate.
  destruct (in_align_class c) eqn:Hc; [|discriminate].
  intros [= <-]. exists c. auto.
Qed.

Lemma findall_from_tokens (s : string) :
  forall k,
    Forall (fun tok => exists c, tok = ("align" ++ String c "")%string
                                 /\ in_align_class c = true)
           (findall_from k s).
Proof.
  induction s as [|c0 s IH]; intros k; [constructor|].
  cbn [findall_from]. destruct k as [|k]; [|apply IH].
  destruct (match_align (String c0 s)) as [tok|] eqn:Hm; [|apply IH].
  constructor; [eapply match_align_Some; exact Hm | apply IH].
Qed.

(** X1. [check_align] ends in one of three ways.  It fails its assertion
    when the pattern does not match exactly once.  It raises [ValueError]
    when the one match is [align|].  Otherwise the one match is [align]
    followed by 1, 2, 4 or 8 and the result tells whether M, N and K are
    all multiples of that number. *)
Theorem check_align_outcomes (op_name : string) (M N K : Z) :
  (length (findall_align op_name) <> 1%nat
   /\ check_align op_name M N K = Raise AssertionError)
  \/ (findall_align op_name = ["align|"]
      /\ check_align op_name M N K = Raise ValueError)
  \/ (exists c a,
        findall_align op_name = [("align" ++ String c "")%string]
        /\ alignment_of_char c = Some a
        /\ check_align op_name M N K
           = Ok (forallb (fun dim => dim `mod` a =? 0) [M; N; K])).
Proof.
  pose proof (findall_from_tokens op_name 0) as Htok.
  unfold check_align. fold (findall_align op_name) in Htok.
  destruct (findall_align op_name) as [|tok [|tok' l]] eqn:Hf.
  - left. split; [simpl; lia | reflexivity].
  - right. apply Forall_cons in Htok as [(c & -> & Hc) _].
    unfold in_align_class in Hc.
    rewrite !orb_true_iff, !bool_decide_eq_true in Hc.
    destruct Hc as [[[[-> | ->] | ->] | ->] | ->].
    + right. exists "1"%char, 1. auto.
    + left. auto.
    + right. exists "2"%char, 2. auto.
    + right. exists "4"%char, 4. auto.
    + right. exists "8"%char, 8. auto.
  - left. split; [simpl; lia | reflexivity].
Qed.

(** ** [DEFAULT_KERNELS] *)

Lemma DEFAULT_KERNELS_lookup (sm : Z) :
  DEFAULT_KERNELS !! sm =
  if bool_decide (sm = 75 \/ sm = 80)
  then Some {[ "float16" := "cutlass_tensorop_h1688gemm_128x64_32x2_tn_align1";
               "float32" := "cutlass_tensorop_s1688gemm_f16_64x64_32x2_tn_align1" ]}
  else None.
Proof.
  unfold DEFAULT_KERNELS. case_bool_decide as H.
  - destruct H as [-> | ->]; [apply lookup_insert_eq|].
    rewrite lookup_insert_ne by done. apply lookup_singleton_eq.
  - rewrite lookup_insert_ne, lookup_singleton_ne by (intros <-; apply H; auto).
    reflexivity.
Qed.

Lemma default_row_lookup (out_dtype d : string) :
  ({[ "float16" := "cutlass_tensorop_h1688gemm_128x64_32x2_tn_align1";
      "float32" := "cutlass_tensorop_s1688gemm_f16_64x64_32x2_tn_align1" ]}
     : gmap string string) !! out_dtype = Some d ->
  (out_dtype = "float16"
   /\ d = "cutlass_tensorop_h1688gemm_128x64_32x2_tn_align1")
  \/ (out_dtype = "float32"
      /\ d = "cutlass_tensorop_s1688gemm_f16_64x64_32x2_tn_align1").
Proof.
  intros H. apply lookup_insert_Some in H as [[<- <-]|[_ H]]; [left; auto|].
  apply lookup_singleton_Some in H as [<- <-]. right; auto.
Qed.

(** X3. Each default kernel passes [check_align] for every shape: the
    names of the table carry the one alignment token [align1], so the
    default of a supported architecture and output type is never filtered
    out. *)
Theorem default_kernels_always_feasible (sm : Z) (kernels : gmap string string)
    (out_dtype d : string) (M N K : Z) :
  DEFAULT_KERNELS !! sm = Some kernels ->
  kernels !! out_dtype = Some d ->
  check_align d M N K = Ok true.
Proof.
  rewrite DEFAULT_KERNELS_lookup. case_bool_decide; [|discriminate].
  intros [= <-] Hd.
  apply default_row_lookup in Hd as [[_ ->]|[_ ->]];
    (rewrite check_align_bar_free by (vm_compute; reflexivity));
    (replace (alignment_tokens _) with [1] by (vm_compute; reflexivity));
    simpl; rewrite !Z.mod_1_r; reflexivity.
Qed.

Section Profiler.

Context {LT : LibraryTypes} {L : Library}.

(** ** The filter *)

Lemma filter_raising_Ok {X : Type} (f : X -> result bool) (l l' : list X) :
  filter_raising f l = Ok l' ->
  Forall (fun x => x ∈ l /\ f x = Ok true) l' /\ sublist l' l.
Proof.
  revert l'. induction l as [|x l IH]; intros l'; simpl.
  - intros [= <-]. split; constructor.
  - destruct (f x) as [b|] eqn:Hfx; [|discriminate]. simpl.
    destruct (filter_raising f l) as [r|]; [|discriminate]. simpl.
    destruct (IH r eq_refl) as [Hall Hsub].
    assert (Hall' : Forall (fun y => y ∈ x :: l /\ f y = Ok true) r).
    { eapply Forall_impl; [exact Hall|]. intros y [Hy Hfy].
      split; [right; exact Hy | exact Hfy]. }
    intros [= <-]. destruct b.
    + split; [constructor; [split; [left|exact Hfx] | exact Hall']
             | constructor; exact Hsub].
    + split; [exact Hall' | constructor; exact Hsub].
Qed.

Lemma filter_raising_Raise {X : Type} (f : X -> result bool) (l : list X)
    (x : X) (e : exn) :
  x ∈ l -> f x = Raise e -> exists e', filter_raising f l = Raise e'.
Proof.
  induction l as [|y l IH]; intros Hin Hfx; [inversion Hin|]. simpl.
  destruct (f y) as [b|e0] eqn:Hfy; simpl; [|eexists; reflexivity].
  assert (Hl : x ∈ l).
  { apply elem_of_cons in Hin as [->|Hin]; [congruence | exact Hin]. }
  destruct (IH Hl Hfx) as [e' ->]. simpl. eexists; reflexivity.
Qed.

(** ** The loop and [min] *)

Lemma eval_loop_exit (profile_all : bool) (M N K : Z) (ops : list Candidate) :
  forall (e e' : Engine) (x : loop_exit) (evs : list event),
    eval_loop profile_all M N K e ops = (x, e', evs) ->
    (exists pre, pre `prefix_of` ops /\ evs = evaluate_events M N K pre)
    /\ match x with
       | Return w => exists c r, c ∈ ops /\ w = set_runtime c r
       | Fallthrough timed =>
           Forall2 (fun c c' => exists r, c' = set_runtime c r) ops timed
       end.
Proof.
  induction ops as [|c ops IH]; intros e e' x evs; simpl.
  - intros [= <- <- <-]. split; [exists []; split; [apply prefix_nil | reflexivity]|].
    constructor.
  - destruct (evaluate e c [M; N; K]) as [out e1].
    destruct (is_finite out && negb profile_all).
    + intros [= <- <- <-]. split.
      * exists [c]. split; [apply prefix_cons, prefix_nil | reflexivity].
      * exists c, out. split; [left | reflexivity].
    + destruct (eval_loop profile_all M N K e1 ops) as [[x1 e2] evs1] eqn:Hloop.
      destruct (IH _ _ _ _ Hloop) as [(pre & Hpre & Hevs) Hx].
      intros [= <- <- <-]. split.
      * exists (c :: pre). split; [apply prefix_cons, Hpre|].
        rewrite Hevs. reflexivity.
      * destruct x1 as [w|timed].
        -- destruct Hx as (c' & r & Hin & ->). exists c', r.
           split; [right; exact Hin | reflexivity].
        -- constructor; [eexists; reflexivity | exact Hx].
Qed.

Lemma min_loop_elem (l : list Candidate) :
  forall (best w : Candidate) (kbest : runtime),
    min_loop best kbest l = Ok w -> w = best \/ w ∈ l.
Proof.
  induction l as [|i l IH]; intros best w kbest; simpl.
  - intros [= <-]. left; reflexivity.
  - destruct (runtime_key i) as [k|]; [|discriminate]. simpl.
    destruct (rt_ltb k kbest); intros H; apply IH in H as [->|H];
      try (right; right; exact H); [right; left | left; reflexivity].
Qed.

Lemma min_by_runtime_elem (l : list Candidate) (w : Candidate) :
  min_by_runtime l = Ok w -> w ∈ l.
Proof.
  destruct l as [|i l]; [discriminate|]. simpl.
  destruct (runtime_key i) as [k|]; [|discriminate]. simpl.
  intros H. apply min_loop_elem in H as [->|H]; [left | right; exact H].
Qed.

(** ** What [select_op] does to the profiler *)

(** Every way [select_op] can end. *)
Lemma select_op_outcome (self self' : Profiler) (M N K : Z)
    (out_dtype : string) (profile_all use_multiprocessing : bool)
    (r : result Candidate) :
  select_op self M N K out_dtype profile_all use_multiprocessing = (r, self') ->
  sm self' = sm self
  /\ match r with
     | Raise _ => cache self' = cache self
     | Ok w =>
         (cache self !! (M, N, K) = Some w /\ self' = self)
         \/ (cache self !! (M, N, K) = None
             /\ cache self' = <[(M, N, K) := w]> (cache self)
             /\ exists gen catalog c r0,
                  GENERATOR_FUNC_TABLE (sm self) = Some gen
                  /\ gen out_dtype enumerate_gemm_operators = Ok catalog
                  /\ c ∈ catalog
                  /\ check_align (name c) M N K = Ok true
                  /\ w = set_runtime c r0)
     end.
Proof.
  unfold select_op, generate.
  destruct (cache self !! (M, N, K)) as [c0|] eqn:Hhit.
  { intros [= <- <-]. split; [reflexivity | left; auto]. }
  destruct (GENERATOR_FUNC_TABLE (sm self)) as [gen|] eqn:Hgen;
    [|intros [= <- <-]; split; reflexivity].
  destruct (gen out_dtype enumerate_gemm_operators) as [catalog|e0] eqn:Hcat;
    [|intros [= <- <-]; split; reflexivity].
  simpl.
  destruct (filter_raising _ catalog) as [feas|e0] eqn:Hfeas;
    [|intros [= <- <-]; split; reflexivity].
  apply filter_raising_Ok in Hfeas as [Hfeas _].
  assert (Hfound : forall w, (exists c r0, c ∈ feas /\ w = set_runtime c r0) ->
            exists gen' catalog' c r0,
              Some gen = Some gen'
              /\ gen' out_dtype enumerate_gemm_operators = Ok catalog'
              /\ c ∈ catalog' /\ check_align (name c) M N K = Ok true
              /\ w = set_runtime c r0).
  { intros w (c & r0 & Hin & ->). exists gen, catalog, c, r0.
    rewrite Forall_forall in Hfeas. destruct (Hfeas c Hin) as [Hc Hok]. auto. }
  destruct profile_all; simpl;
    (destruct (eval_loop _ _ _ _ _ feas) as [[x e] evs] eqn:Hloop;
     apply eval_loop_exit in Hloop as [_ Hx];
     destruct x as [w|timed];
     [ intros [= <- <-]; simpl; split; [reflexivity|]; right; auto
     | destruct (min_by_runtime timed) as [w|e0] eqn:Hmin; intros [= <- <-];
       simpl; (split; [reflexivity|]); [|reflexivity];
       right; split; [reflexivity|]; split; [reflexivity|]; apply Hfound;
       apply min_by_runtime_elem in Hmin;
       apply list_elem_of_lookup_1 in Hmin as [j Hj];
       destruct (Forall2_lookup_r _ _ _ _ _ Hx Hj) as (c & Hc & r0 & ->);
       exists c, r0; split;
         [eapply list_elem_of_lookup_2; exact Hc | reflexivity] ]).
Qed.

(** X5. A call of [select_op] that raises leaves the cache as it was:
    whatever the exception (from the generator, from [check_align] in the
    filter, from [min] on an empty list), no entry is added, replaced or
    removed. *)
Theorem select_op_failure_keeps_cache (self self' : Profiler) (M N K : Z)
    (out_dtype : string) (profile_all use_multiprocessing : bool) (e : exn) :
  select_op self M N K out_dtype profile_all use_multiprocessing
  = (Raise e, self') ->
  cache self' = cache self /\ sm self' = sm self.
Proof.
  intros H. apply select_op_outcome in H as [Hsm Hc]. auto.
Qed.

(** X6. On a cache miss, what [select_op] returns is a candidate of the
    catalog, with a runtime attached, whose name passes [check_align] for
    the requested shape: a kernel whose alignment does not divide M, N and
    K is never selected.  It is stored under (M, N, K) and no other key
    changes. *)
Theorem select_op_returns_feasible (self self' : Profiler) (M N K : Z)
    (out_dtype : string) (profile_all use_multiprocessing : bool)
    (w : Candidate) :
  cache self !! (M, N, K) = None ->
  select_op self M N K out_dtype profile_all use_multiprocessing = (Ok w, self') ->
  check_align (name w) M N K = Ok true
  /\ is_Some (runtime_ w)
  /\ (exists gen catalog c,
        GENERATOR_FUNC_TABLE (sm self) = Some gen
        /\ gen out_dtype enumerate_gemm_operators = Ok catalog
        /\ c ∈ catalog /\ name w = name c
        /\ tile_description w = tile_description c
        /\ alignment w = alignment c)
  /\ cache self' !! (M, N, K) = Some w
  /\ (forall M' N' K', (M', N', K') <> (M, N, K) ->
        cache self' !! (M', N', K') = cache self !! (M', N', K')).
Proof.
  intros Hmiss H. apply select_op_outcome in H as [_ [[Hhit _]|H]];
    [congruence|].
  destruct H as (_ & Hc & gen & catalog & c & r0 & Hgen & Hcat & Hin & Hok & ->).
  split; [exact Hok|]. split; [eexists; reflexivity|].
  split; [exists gen, catalog, c; repeat split; assumption|].
  split; [rewrite Hc; apply lookup_insert_eq|].
  intros M' N' K' Hne. rewrite Hc. apply lookup_insert_ne. congruence.
Qed.

(** X7. When the name of some catalog candidate makes [check_align] raise
    (no match or several matches of the pattern, or a bar), [select_op] on
    a cache miss raises in either mode, right after the generator call:
    nothing is compiled or evaluated and the cache is unchanged. *)
Theorem select_op_malformed_name_aborts (self : Profiler) (M N K : Z)
    (out_dtype : string) (profile_all use_multiprocessing : bool)
    (gen : string -> op_creator_t -> result (list Candidate))
    (catalog : list Candidate) (c : Candidate) (e : exn) :
  cache self !! (M, N, K) = None ->
  GENERATOR_FUNC_TABLE (sm self) = Some gen ->
  gen out_dtype enumerate_gemm_operators = Ok catalog ->
  c ∈ catalog ->
  check_align (name c) M N K = Raise e ->
  exists e',
    select_op self M N K out_dtype profile_all use_multiprocessing
    = (Raise e',
       mkProfiler (sm self) (cache self) (engine self)
         (trace self ++ [EvEnumerate out_dtype])).
Proof.
  intros Hmiss Hgen Hcat Hin Hc.
  destruct (filter_raising_Raise (fun c0 => check_align (name c0) M N K)
              catalog c e Hin Hc) as [e' He'].
  exists e'. unfold select_op, generate. rewrite Hmiss, Hgen, Hcat. simpl.
  rewrite He'. reflexivity.
Qed.

(** X8. Whatever its outcome, [select_op] only extends the trace, and the
    kernels it hands to the engine all pass [check_align] for the
    requested shape: every [evaluate] call is for the shape [M, N, K] and
    for a name that passes, and every [compile_all] call lists such names
    only. *)
Theorem select_op_engine_calls_feasible (self self' : Profiler) (M N K : Z)
    (out_dtype : string) (profile_all use_multiprocessing : bool)
    (r : result Candidate) :
  select_op self M N K out_dtype profile_all use_multiprocessing = (r, self') ->
  exists evs,
    trace self' = trace self ++ evs
    /\ (forall n sh, EvEvaluate n sh ∈ evs ->
          sh = [M; N; K] /\ check_align n M N K = Ok true)
    /\ (forall names mp, EvCompileAll names mp ∈ evs ->
          Forall (fun n => check_align n M N K = Ok true) names).
Proof.
  unfold select_op, generate.
  assert (Hnil : forall p : Profiler, exists evs,
            trace p = trace p ++ evs
            /\ (forall n sh, EvEvaluate n sh ∈ evs ->
                  sh = [M; N; K] /\ check_align n M N K = Ok true)
            /\ (forall names mp, EvCompileAll names mp ∈ evs ->
                  Forall (fun n => check_align n M N K = Ok true) names)).
  { intros p. exists []. rewrite app_nil_r.
    split; [reflexivity|]. split; intros; exfalso; eapply not_elem_of_nil; eauto. }
  destruct (cache self !! (M, N, K)) as [c0|]; [intros [= <- <-]; apply Hnil|].
  destruct (GENERATOR_FUNC_TABLE (sm self)) as [gen|];
    [|intros [= <- <-]; apply Hnil].
  assert (Henum : forall evs',
            (forall n sh, EvEvaluate n sh ∈ evs' ->
               sh = [M; N; K] /\ check_align n M N K = Ok true) ->
            (forall names mp, EvCompileAll names mp ∈ evs' ->
               Forall (fun n => check_align n M N K = Ok true) names) ->
            exists evs,
              (trace self ++ [EvEnumerate out_dtype]) ++ evs' = trace self ++ evs
              /\ (forall n sh, EvEvaluate n sh ∈ evs ->
                    sh = [M; N; K] /\ check_align n M N K = Ok true)
              /\ (forall names mp, EvCompileAll names mp ∈ evs ->
                    Forall (fun n => check_align n M N K = Ok true) names)).
  { intros evs' He Hc. exists (EvEnumerate out_dtype :: evs').
    rewrite <- app_assoc. split; [reflexivity|].
    split; [intros n sh Hin | intros names mp Hin];
      apply elem_of_cons in Hin as [Heq|Hin]; try discriminate; eauto. }
  destruct (gen out_dtype enumerate_gemm_operators) as [catalog|e0]; simpl.
  2:{ intros [= <- <-]. simpl.
      destruct (Henum []) as (evs & Heq & H1 & H2);
        [intros; exfalso; eapply not_elem_of_nil; eauto
        |intros; exfalso; eapply not_elem_of_nil; eauto|].
      rewrite app_nil_r in Heq. exists evs. auto. }
  destruct (filter_raising _ catalog) as [feas|e0] eqn:Hfeas.
  2:{ intros [= <- <-]. simpl.
      destruct (Henum []) as (evs & Heq & H1 & H2);
        [intros; exfalso; eapply not_elem_of_nil; eauto
        |intros; exfalso; eapply not_elem_of_nil; eauto|].
      rewrite app_nil_r in Heq. exists evs. auto. }
  apply filter_raising_Ok in Hfeas as [Hfeas _]. rewrite Forall_forall in Hfeas.
  assert (Hev : forall pre, pre `prefix_of` feas ->
            forall n sh, EvEvaluate n sh ∈ evaluate_events M N K pre ->
              sh = [M; N; K] /\ check_align n M N K = Ok true).
  { intros pre [suf ->] n sh Hin. unfold evaluate_events in Hin.
    apply list_elem_of_fmap in Hin as (c & [= -> ->] & Hc).
    split; [reflexivity|]. apply Hfeas, elem_of_app. left; exact Hc. }
  assert (Hnames : Forall (fun n => check_align n M N K = Ok true) (map name feas)).
  { apply Forall_forall. intros n Hin.
    apply list_elem_of_fmap in Hin as (c & -> & Hc). apply Hfeas, Hc. }
  destruct profile_all; simpl;
    (destruct (eval_loop _ _ _ _ _ feas) as [[x e] evs1] eqn:Hloop;
     apply eval_loop_exit in Hloop as [(pre & Hpre & ->) _]).
  - assert (Hgoal : exists evs,
              ((trace self ++ [EvEnumerate out_dtype])
               ++ [EvCompileAll (map name feas) use_multiprocessing])
              ++ evaluate_events M N K pre = trace self ++ evs
              /\ (forall n sh, EvEvaluate n sh ∈ evs ->
                    sh = [M; N; K] /\ check_align n M N K = Ok true)
              /\ (forall names mp, EvCompileAll names mp ∈ evs ->
                    Forall (fun n => check_align n M N K = Ok true) names)).
    { rewrite <- app_assoc.
      apply (Henum ([EvCompileAll (map name feas) use_multiprocessing]
                    ++ evaluate_events M N K pre)).
      - intros n sh Hin. apply elem_of_cons in Hin as [Heq|Hin];
          [discriminate | eapply Hev; eauto].
      - intros names mp Hin. apply elem_of_cons in Hin as [[= -> ->]|Hin];
          [exact Hnames|].
        unfold evaluate_events in Hin.
        apply list_elem_of_fmap in Hin as (c & Heq & _). discriminate. }
    destruct x as [w|timed]; [intros [= <- <-]; exact Hgoal|].
    destruct (min_by_runtime timed); intros [= <- <-]; exact Hgoal.
  - assert (Hgoal : exists evs,
              (trace self ++ [EvEnumerate out_dtype])
              ++ evaluate_events M N K pre = trace self ++ evs
              /\ (forall n sh, EvEvaluate n sh ∈ evs ->
                    sh = [M; N; K] /\ check_align n M N K = Ok true)
              /\ (forall names mp, EvCompileAll names mp ∈ evs ->
                    Forall (fun n => check_align n M N K = Ok true) names)).
    { apply Henum; [eapply Hev; eauto|].
      intros names mp Hin. unfold evaluate_events in Hin.
      apply list_elem_of_fmap in Hin as (c & Heq & _). discriminate. }
    destruct x as [w|timed]; [intros [= <- <-]; exact Hgoal|].
    destruct (min_by_runtime timed); intros [= <- <-]; exact Hgoal.
Qed.

(** ** [get_default] and [profile] *)

(** [get_default] changes the trace only. *)
Lemma get_default_state (self : Profiler) (op_type out_dtype : string)
    (batched : bool) :
  let p := (get_default self op_type out_dtype batched).2 in
  sm p = sm self /\ cache p = cache self /\ engine p = engine self.
Proof.
  unfold get_default, generate.
  destruct (GENERATOR_FUNC_TABLE (sm self)); simpl; auto.
Qed.

(** [select_op] does not read the trace. *)
Lemma select_op_trace_blind (p q : Profiler) (M N K : Z) (out_dtype : string)
    (profile_all use_multiprocessing : bool) :
  sm p = sm q -> cache p = cache q -> engine p = engine q ->
  let rp := select_op p M N K out_dtype profile_all use_multiprocessing in
  let rq := select_op q M N K out_dtype profile_all use_multiprocessing in
  rp.1 = rq.1 /\ sm rp.2 = sm rq.2 /\ cache rp.2 = cache rq.2
  /\ engine rp.2 = engine rq.2.
Proof.
  intros Hsm Hcache Hengine. unfold select_op, generate.
  rewrite <- Hsm, <- Hcache.
  destruct (cache p !! (M, N, K)); [simpl; auto|].
  destruct (GENERATOR_FUNC_TABLE (sm p)) as [gen|]; [|simpl; auto].
  destruct (gen out_dtype enumerate_gemm_operators) as [catalog|]; simpl; auto.
  destruct (filter_raising _ catalog) as [feas|]; simpl; auto.
  rewrite <- Hengine.
  destruct profile_all; simpl;
    (destruct (eval_loop _ _ _ _ _ feas) as [[x e] evs]; destruct x as [w|timed];
     [simpl; rewrite <- ?Hcache; auto
     | destruct (min_by_runtime timed); simpl; rewrite <- ?Hcache; auto]).
Qed.

(** X10. [get_default] never stores its result and never calls the engine,
    so it does not influence later selections: [select_op] after
    [get_default] returns what it returns without it, and leaves the same
    cache and engine state. *)
Theorem get_default_then_select_op (self : Profiler)
    (op_type out_dtype out_dtype' : string) (batched : bool) (M N K : Z)
    (profile_all use_multiprocessing : bool) :
  let after := (get_default self op_type out_dtype batched).2 in
  let r := select_op self M N K out_dtype' profile_all use_multiprocessing in
  let r' := select_op after M N K out_dtype' profile_all use_multiprocessing in
  cache after = cache self /\ engine after = engine self
  /\ r'.1 = r.1 /\ cache r'.2 = cache r.2 /\ engine r'.2 = engine r.2.
Proof.
  intros after r r'.
  destruct (get_default_state self op_type out_dtype batched) as (Hsm & Hc & He).
  destruct (select_op_trace_blind after self M N K out_dtype' profile_all
              use_multiprocessing Hsm Hc He) as (H1 & _ & H2 & H3).
  auto.
Qed.

(** X11. When the output type is not a key of the table of defaults of a
    supported architecture, [get_default] raises [KeyError] after the
    generator has returned, whatever the catalog holds. *)
Theorem get_default_unknown_out_dtype (self : Profiler)
    (op_type out_dtype : string) (batched : bool)
    (gen : string -> op_creator_t -> result (list Candidate))
    (catalog : list Candidate) :
  GENERATOR_FUNC_TABLE (sm self) = Some gen ->
  gen out_dtype enumerate_gemm_operators = Ok catalog ->
  sm self = 75 \/ sm self = 80 ->
  out_dtype <> "float16" -> out_dtype <> "float32" ->
  get_default self op_type out_dtype batched
  = (Raise KeyError,
     mkProfiler (sm self) (cache self) (engine self)
       (trace self ++ [EvEnumerate out_dtype])).
Proof.
  intros Hgen Hcat Hsm H16 H32. unfold get_default, generate.
  rewrite Hgen, Hcat. simpl.
  rewrite DEFAULT_KERNELS_lookup, (bool_decide_eq_true_2 _ Hsm). simpl.
  rewrite lookup_insert_ne, lookup_singleton_ne by congruence. reflexivity.
Qed.

(** [profile] is [select_op] followed by the re-instantiation. *)
Lemma profile_after_select_op (self self' : Profiler) (op_type : string)
    (M N K : Z) (out_dtype : string)
    (profile_all use_multiprocessing batched : bool) (c : Candidate) :
  select_op self M N K out_dtype profile_all use_multiprocessing = (Ok c, self') ->
  profile self op_type M N K out_dtype profile_all use_multiprocessing batched
  = (match EPILOGUE_MAP op_type with
     | None => Raise KeyError
     | Some (e, nb) =>
         do rt <- runtime_key c;
         Ok (procedural_name (reinstantiated c e batched),
             kernel_emit (reinstantiated c e batched) (Some nb) batched, rt)
     end, self').
Proof.
  intros H. unfold profile. rewrite H. simpl. rewrite create_for_candidate.
  destruct (EPILOGUE_MAP op_type) as [[e nb]|]; reflexivity.
Qed.

(** X12. An operator type that is not in [EPILOGUE_MAP] is only found out
    after the search: [profile] raises [KeyError], and the winner that
    [select_op] found is in the cache all the same. *)
Theorem profile_unknown_op_type (self self' : Profiler) (op_type : string)
    (M N K : Z) (out_dtype : string)
    (profile_all use_multiprocessing batched : bool) (c : Candidate) :
  select_op self M N K out_dtype profile_all use_multiprocessing = (Ok c, self') ->
  EPILOGUE_MAP op_type = None ->
  profile self op_type M N K out_dtype profile_all use_multiprocessing batched
  = (Raise KeyError, self')
  /\ cache self' !! (M, N, K) = Some c.
Proof.
  intros H He. rewrite (profile_after_select_op _ _ _ _ _ _ _ _ _ _ _ H), He.
  split; [reflexivity|]. eapply select_op_ok_cached; exact H.
Qed.

(** X13. After a call of [profile] that succeeded, every further call for
    the same shape with an operator type of [EPILOGUE_MAP] succeeds with
    the same runtime and leaves the profiler untouched (no generator or
    engine call), whatever the output type, the mode and the batched flag;
    only the name and the kernel definition follow the new operator
    type. *)
Theorem profile_repeat (self self' : Profiler) (op_type op_type' : string)
    (M N K : Z) (out_dtype out_dtype' : string)
    (profile_all use_multiprocessing batched : bool)
    (profile_all' use_multiprocessing' batched' : bool)
    (n d : string) (rt : runtime) (e : EpilogueFunctor) (nb : bool) :
  profile self op_type M N K out_dtype profile_all use_multiprocessing batched
  = (Ok (n, d, rt), self') ->
  EPILOGUE_MAP op_type' = Some (e, nb) ->
  exists c,
    cache self' !! (M, N, K) = Some c
    /\ profile self' op_type' M N K out_dtype' profile_all'
         use_multiprocessing' batched'
       = (Ok (procedural_name (reinstantiated c e batched'),
              kernel_emit (reinstantiated c e batched') (Some nb) batched', rt),
          self').
Proof.
  intros H He.
  destruct (select_op self M N K out_dtype profile_all use_multiprocessing)
    as [[c|e0] p1] eqn:Hsel.
  2:{ unfold profile in H. rewrite Hsel in H. discriminate. }
  rewrite (profile_after_select_op _ _ _ _ _ _ _ _ _ _ _ Hsel) in H.
  assert (Hrt : runtime_key c = Ok rt /\ p1 = self').
  { destruct (EPILOGUE_MAP op_type) as [[e1 nb1]|]; [|discriminate].
    destruct (runtime_key c) as [rt1|]; [|discriminate].
    simpl in H. injection H as _ _ -> ->. auto. }
  destruct Hrt as [Hrt ->].
  exists c. split; [eapply select_op_ok_cached; exact Hsel|].
  rewrite (profile_after_select_op self' self' op_type' M N K out_dtype'
             profile_all' use_multiprocessing' batched' c).
  - rewrite He, Hrt. reflexivity.
  - eapply select_op_repeat. exact Hsel.
Qed.

(** ** [__init__] and the profilers it gives rise to *)

Lemma DEFAULT_KERNELS_supported (sm0 : Z) :
  is_Some (DEFAULT_KERNELS !! sm0) <-> sm0 = 75 \/ sm0 = 80.
Proof.
  rewrite DEFAULT_KERNELS_lookup. case_bool_decide as H.
  - split; [intros _; exact H | intros _; eexists; reflexivity].
  - split; [intros [? ?]; done | intros H'; done].
Qed.

Lemma init_outcome (sm0 : Z) (cutlass_path binary_path : string) :
  match init sm0 cutlass_path binary_path with
  | Ok p =>
      is_Some (GENERATOR_FUNC_TABLE sm0) /\ (sm0 = 75 \/ sm0 = 80)
      /\ sm p = sm0 /\ cache p = ∅ /\ trace p = []
      /\ engine p = ProfilerEngine sm0 cutlass_path binary_path
  | Raise e =>
      e = AssertionError
      /\ (GENERATOR_FUNC_TABLE sm0 = None \/ (sm0 <> 75 /\ sm0 <> 80))
  end.
Proof.
  unfold init.
  destruct (bool_decide (is_Some (GENERATOR_FUNC_TABLE sm0))) eqn:H1;
    destruct (bool_decide (is_Some (DEFAULT_KERNELS !! sm0))) eqn:H2; simpl.
  - apply bool_decide_eq_true in H1, H2.
    apply DEFAULT_KERNELS_supported in H2. auto 10.
  - apply bool_decide_eq_false in H2.
    rewrite DEFAULT_KERNELS_supported in H2.
    split; [reflexivity|]. right. split; intros ->; apply H2; auto.
  - apply bool_decide_eq_false in H1. split; [reflexivity|]. left.
    destruct (GENERATOR_FUNC_TABLE sm0); [|reflexivity].
    exfalso. apply H1. eexists; reflexivity.
  - apply bool_decide_eq_false in H1. split; [reflexivity|]. left.
    destruct (GENERATOR_FUNC_TABLE sm0); [|reflexivity].
    exfalso. apply H1. eexists; reflexivity.
Qed.

(** X4. [__init__] succeeds exactly for the architectures 75 and 80 that
    also have a generator, and then gives a profiler with an empty cache;
    for any other architecture it fails its assertion. *)
Theorem init_supported (sm0 : Z) (cutlass_path binary_path : string) :
  (is_Some (GENERATOR_FUNC_TABLE sm0) /\ (sm0 = 75 \/ sm0 = 80) ->
   init sm0 cutlass_path binary_path
   = Ok (mkProfiler sm0 ∅ (ProfilerEngine sm0 cutlass_path binary_path) []))
  /\ (GENERATOR_FUNC_TABLE sm0 = None \/ (sm0 <> 75 /\ sm0 <> 80) ->
      init sm0 cutlass_path binary_path = Raise AssertionError).
Proof.
  pose proof (init_outcome sm0 cutlass_path binary_path) as H.
  unfold init in *.
  destruct (assert _) as [[]|e]; simpl in *.
  - split; [reflexivity|]. destruct H as ([gen Hgen] & Hsm & _).
    intros [Hnone|[H75 H80]]; [congruence | lia].
  - destruct H as [-> H]. split; [|reflexivity].
    intros [[gen Hgen] Hsm]. destruct H as [Hnone|[H75 H80]]; [congruence | lia].
Qed.

(** [select_op] keeps the cache feasible. *)
Lemma select_op_keeps_feasible (q : Profiler) (M N K : Z) (out_dtype : string)
    (profile_all use_multiprocessing : bool) :
  cache_feasible q ->
  let q' := (select_op q M N K out_dtype profile_all use_multiprocessing).2 in
  cache_feasible q' /\ sm q' = sm q.
Proof.
  intros Hq.
  destruct (select_op q M N K out_dtype profile_all use_multiprocessing)
    as [r q'] eqn:Hs.
  simpl. pose proof (select_op_outcome _ _ _ _ _ _ _ _ _ Hs) as [Hsm Hr].
  split; [|exact Hsm].
  destruct r as [w|e].
  - destruct Hr as [[_ ->]|(Hmiss & Hc & gen & catalog & c & r0 & _ & _ & _ & Hok & ->)];
      [exact Hq|].
    intros M' N' K' w' Hw'. rewrite Hc in Hw'.
    apply lookup_insert_Some in Hw' as [[[= <- <- <-] <-]|[_ Hw']];
      [|apply Hq, Hw'].
    split; [exact Hok | eexists; reflexivity].
  - intros M' N' K' w' Hw'. rewrite Hr in Hw'. apply Hq, Hw'.
Qed.

(** X9. For every profiler made by [__init__] and passed through any
    sequence of [select_op], [get_default] and [profile] calls: every
    cache entry carries a runtime and passes [check_align] for the shape
    it is stored under, and the architecture is a supported one with a
    generator. *)
Theorem reachable_invariant (p : Profiler) :
  reachable p ->
  (forall (M N K : Z) (w : Candidate),
     cache p !! (M, N, K) = Some w ->
     check_align (name w) M N K = Ok true /\ is_Some (runtime_ w))
  /\ is_Some (GENERATOR_FUNC_TABLE (sm p))
  /\ (sm p = 75 \/ sm p = 80).
Proof.
  fold (cache_feasible p).
  induction 1 as [sm0 cp bp p Hinit
                 | p M N K out_dtype profile_all mp _ IH
                 | p op_type out_dtype batched _ IH
                 | p op_type M N K out_dtype profile_all mp batched _ IH].
  - pose proof (init_outcome sm0 cp bp) as H. rewrite Hinit in H.
    destruct H as (Hgen & Hsm & Hp & Hc & _). rewrite Hp.
    split; [|auto]. intros M N K w Hw. rewrite Hc, lookup_empty in Hw. done.
  - destruct IH as (Hc & Hgen & Hsm).
    destruct (select_op_keeps_feasible p M N K out_dtype profile_all mp Hc)
      as [Hc' Hsm'].
    rewrite Hsm'. auto.
  - destruct IH as (Hc & Hgen & Hsm).
    destruct (get_default_state p op_type out_dtype batched) as (Hsm' & Hc' & _).
    rewrite Hsm'. split; [|auto].
    intros M N K w Hw. rewrite Hc' in Hw. apply Hc, Hw.
  - destruct IH as (Hc & Hgen & Hsm).
    destruct (select_op_keeps_feasible p M N K out_dtype profile_all mp Hc)
      as [Hc' Hsm'].
    unfold profile.
    destruct (select_op p M N K out_dtype profile_all mp) as [r q'].
    simpl in *. rewrite Hsm'. auto.
Qed.

(** X14. On a profiler whose cache entries all carry a runtime and pass
    [check_align] for their key (as after [__init__] and any method
    calls), [profile] succeeds whenever [select_op] does and the operator
    type is in [EPILOGUE_MAP]: the lookup of the winner's runtime cannot
    fail.  It returns the procedural name and the kernel definition of the
    winner re-instantiated with the requested epilogue, and the winner's
    runtime. *)
Theorem profile_on_feasible_cache (self self' : Profiler) (op_type : string)
    (M N K : Z) (out_dtype : string)
    (profile_all use_multiprocessing batched : bool) (c : Candidate)
    (e : EpilogueFunctor) (nb : bool) :
  cache_feasible self ->
  select_op self M N K out_dtype profile_all use_multiprocessing = (Ok c, self') ->
  EPILOGUE_MAP op_type = Some (e, nb) ->
  exists rt,
    runtime_ c = Some rt
    /\ profile self op_type M N K out_dtype profile_all use_multiprocessing
         batched
       = (Ok (procedural_name (reinstantiated c e batched),
              kernel_emit (reinstantiated c e batched) (Some nb) batched, rt),
          self').
Proof.
  intros Hfeas Hsel He.
  assert (Hc : cache_feasible self').
  { pose proof (select_op_keeps_feasible self M N K out_dtype profile_all
                  use_multiprocessing Hfeas) as [H _].
    rewrite Hsel in H. exact H. }
  destruct (Hc M N K c (select_op_ok_cached _ _ _ _ _ _ _ _ _ Hsel))
    as [_ [rt Hrt]].
  exists rt. split; [exact Hrt|].
  rewrite (profile_after_select_op _ _ _ _ _ _ _ _ _ _ _ Hsel), He.
  unfold runtime_key. rewrite Hrt. reflexivity.
Qed.

End Profiler.

(** * The further properties on the instances *)

Lemma check_align_bar_free_divides_witness :
  exists b,
    check_align "cutlass_tensorop_h1688gemm_64x64_32x2_tn_align8" 64 63 64 = Ok b
    /\ (b = true <-> (8 | 64) /\ (8 | 63) /\ (8 | 64)).
Proof.
  apply (check_align_bar_free_divides
           "cutlass_tensorop_h1688gemm_64x64_32x2_tn_align8" 8 64 63 64);
    vm_compute; reflexivity.
Defined.

Lemma default_kernels_always_feasible_witness :
  check_align "cutlass_tensorop_s1688gemm_f16_64x64_32x2_tn_align1" 65 63 7
  = Ok true.
Proof.
  apply (default_kernels_always_feasible 80
           {[ "float16" := "cutlass_tensorop_h1688gemm_128x64_32x2_tn_align1";
              "float32" := "cutlass_tensorop_s1688gemm_f16_64x64_32x2_tn_align1" ]}
           "float32" _ 65 63 7);
    vm_compute; reflexivity.
Defined.

Lemma init_supported_witness :
  init (L := L_ok) 80 "cutlass" "bin" = Ok (ex_profiler L_ok)
  /\ init (L := L_ok) 70 "cutlass" "bin" = Raise AssertionError.
Proof.
  split.
  - apply (proj1 (init_supported (L := L_ok) 80 "cutlass" "bin")).
    split; [eexists; reflexivity | right; reflexivity].
  - apply (proj2 (init_supported (L := L_ok) 70 "cutlass" "bin")).
    left. reflexivity.
Defined.

Lemma select_op_failure_keeps_cache_witness :
  let p := (select_op (L := L_aligned) (ex_profiler L_aligned) 64 64 64
              "float16" true false).2 in
  let r := select_op (L := L_aligned) p 65 64 64 "float16" false false in
  r.1 = Raise ValueError /\ cache r.2 = cache p /\ sm r.2 = sm p.
Proof.
  intros p r. split; [vm_compute; reflexivity|].
  apply (select_op_failure_keeps_cache (L := L_aligned) p r.2 65 64 64
           "float16" false false ValueError).
  vm_compute; reflexivity.
Defined.

Lemma select_op_returns_feasible_witness :
  let r := select_op (L := L_ok) (ex_profiler L_ok) 66 64 64 "float16"
             true false in
  exists w,
    r.1 = Ok w
    /\ name w = "cutlass_tensorop_h1688gemm_128x64_32x2_tn_align1"
    /\ check_align (name w) 66 64 64 = Ok true
    /\ cache r.2 !! (66, 64, 64) = Some w.
Proof.
  intros r.
  exists (set_runtime (ex_candidate L_ok ex_t1 1) (Finite (7 # 2))).
  assert (Hr : r = (Ok (set_runtime (ex_candidate L_ok ex_t1 1) (Finite (7 # 2))),
                    r.2)) by (vm_compute; reflexivity).
  destruct (select_op_returns_feasible (L := L_ok) (ex_profiler L_ok) r.2
              66 64 64 "float16" true false _ (lookup_empty _) Hr)
    as (Hok & _ & _ & Hc & _).
  split; [rewrite Hr; reflexivity|]. split; [reflexivity|]. auto.
Defined.

Lemma select_op_malformed_name_aborts_witness :
  exists e',
    select_op (L := L_unnamed) (ex_profiler L_unnamed) 64 64 64 "float16"
      true true
    = (Raise e', mkProfiler 80 ∅ O [EvEnumerate "float16"]).
Proof.
  eapply (select_op_malformed_name_aborts (L := L_unnamed)
            (ex_profiler L_unnamed) 64 64 64 "float16" true true _
            (ex_catalog L_unnamed ex_tiles [8; 4; 2; 1])
            (enumerate_one (L := L_unnamed) ex_data_type ex_identity8 ex_t1 8)
            AssertionError).
  - apply lookup_empty.
  - reflexivity.
  - reflexivity.
  - left.
  - vm_compute; reflexivity.
Defined.

Lemma select_op_engine_calls_feasible_witness :
  let r := select_op (L := L_ok) (ex_profiler L_ok) 66 64 64 "float16"
             true false in
  exists evs,
    trace r.2 = [] ++ evs
    /\ (forall n sh, EvEvaluate n sh ∈ evs ->
          sh = [66; 64; 64] /\ check_align n 66 64 64 = Ok true)
    /\ (forall names mp, EvCompileAll names mp ∈ evs ->
          Forall (fun n => check_align n 66 64 64 = Ok true) names).
Proof.
  intros r.
  apply (select_op_engine_calls_feasible (L := L_ok) (ex_profiler L_ok) r.2
           66 64 64 "float16" true false r.1).
  apply surjective_pairing.
Defined.

Lemma get_default_unknown_out_dtype_witness :
  get_default (L := L_any) (ex_profiler L_any) "cutlass.dense" "int8" false
  = (Raise KeyError, mkProfiler 80 ∅ O [EvEnumerate "int8"]).
Proof.
  eapply (get_default_unknown_out_dtype (L := L_any) (ex_profiler L_any)
            "cutlass.dense" "int8" false).
  - reflexivity.
  - reflexivity.
  - right; reflexivity.
  - discriminate.
  - discriminate.
Defined.

Lemma profile_unknown_op_type_witness :
  let r := profile (L := L_ok) (ex_profiler L_ok) "cutlass.conv2d" 64 64 64
             "float16" true false false in
  r.1 = Raise KeyError
  /\ cache r.2 !! (64, 64, 64)
     = Some (set_runtime (ex_candidate L_ok ex_t2 8) (Finite (2 # 1))).
Proof.
  intros r.
  destruct (profile_unknown_op_type (L := L_ok) (ex_profiler L_ok)
              (select_op (L := L_ok) (ex_profiler L_ok) 64 64 64 "float16"
                 true false).2
              "cutlass.conv2d" 64 64 64 "float16" true false false
              (set_runtime (ex_candidate L_ok ex_t2 8) (Finite (2 # 1))))
    as [Hp Hc]; [vm_compute; reflexivity | reflexivity |].
  unfold r. rewrite Hp. split; [reflexivity | exact Hc].
Defined.

Lemma profile_repeat_witness :
  let p := (profile (L := L_ok) (ex_profiler L_ok) "cutlass.dense" 64 64 64
              "float16" true false false).2 in
  exists c,
    cache p !! (64, 64, 64) = Some c
    /\ profile (L := L_ok) p "cutlass.dense_bias_relu" 64 64 64 "float32"
         false true true
       = (Ok (procedural_name (Library := L_ok)
                (reinstantiated (L := L_ok) c ex_linear_relu true),
              kernel_emit (Library := L_ok)
                (reinstantiated (L := L_ok) c ex_linear_relu true)
                (Some true) true,
              Finite (2 # 1)), p).
Proof.
  intros p.
  apply (profile_repeat (L := L_ok) (ex_profiler L_ok) p "cutlass.dense"
           "cutlass.dense_bias_relu" 64 64 64 "float16" "float32"
           true false false false true true
           "cutlass_tensorop_h1688gemm_64x64_32x2_tn_align8"
           "gemm<cutlass_tensorop_h1688gemm_64x64_32x2_tn_align8>"
           (Finite (2 # 1)) ex_linear_relu true).
  - vm_compute; reflexivity.
  - reflexivity.
Defined.

Lemma reachable_invariant_witness :
  let p := (select_op (L := L_ok) (ex_profiler L_ok) 66 64 64 "float16"
              false false).2 in
  (forall (M N K : Z) (w : Candidate),
     cache p !! (M, N, K) = Some w ->
     check_align (name w) M N K = Ok true /\ is_Some (runtime_ w))
  /\ is_Some (GENERATOR_FUNC_TABLE (Library := L_ok) (sm p))
  /\ (sm p = 75 \/ sm p = 80).
Proof.
  intros p.
  apply (reachable_invariant (L := L_ok) p).
  apply reach_select_op.
  apply (reach_init 80 "cutlass" "bin"). vm_compute; reflexivity.
Defined.

Lemma profile_on_feasible_cache_witness :
  exists rt,
    (profile (L := L_ok) (ex_profiler L_ok) "cutlass.dense_bias_relu"
       66 64 64 "float16" true false true).1
    = Ok ("cutlass_tensorop_h1688gemm_128x64_32x2_tn_align1",
          "gemm<cutlass_tensorop_h1688gemm_128x64_32x2_tn_align1, relu, batched>",
          rt).
Proof.
  destruct (profile_on_feasible_cache (L := L_ok) (ex_profiler L_ok)
              (select_op (L := L_ok) (ex_profiler L_ok) 66 64 64 "float16"
                 true false).2
              "cutlass.dense_bias_relu" 66 64 64 "float16" true false true
              (set_runtime (ex_candidate L_ok ex_t1 1) (Finite (7 # 2)))
              ex_linear_relu true)
    as (rt & Hrt & Hp).
  - intros M N K w Hw. unfold ex_profiler in Hw. simpl in Hw.
    rewrite lookup_empty in Hw. discriminate.
  - vm_compute; reflexivity.
  - reflexivity.
  - exists rt. rewrite Hp. reflexivity.
Defined.
